(** * situp: the posture engine of [script.js]

    A shallow embedding of the [PoseDetector] class of [src/script.js]: the
    visibility gate and neck-angle computation of [analyzePosePosture], the
    classification and dwell timer of [handlePosturePersistence], and the
    alert side effects [showPostureAlert] / [hidePostureAlert] together with
    the delayed auto-hide callback.

    Numbers.  JavaScript numbers that carry geometry (coordinates, visibility,
    angles) are idealised as real numbers; rounding, NaN and signed zeros of
    binary64 are outside the model.  Clock readings ([Date.now()]) are integral
    milliseconds and are modelled in [Z], as are the durations derived from
    them by subtraction.  [undefined] / [null] are modelled by [option]. *)

From Stdlib Require Import Reals Lra Lia ZArith List String Ascii Bool.
From Stdlib Require Import DecimalString.
Import ListNotations.

Local Open Scope R_scope.

(** ** JavaScript built-ins used by the class *)

(** Relational operators on numbers, as booleans. *)
Definition Rgtb (x y : R) : bool := if Rgt_dec x y then true else false.
Definition Rgeb (x y : R) : bool := if Rge_dec x y then true else false.
Definition Rleb (x y : R) : bool := if Rle_dec x y then true else false.

(** [x >= o.f] and [x <= o.f] where the property read may give [undefined]:
    [undefined] converts to NaN and every comparison with NaN is false. *)
Definition js_ge (x : R) (y : option R) : bool :=
  match y with Some y => Rgeb x y | None => false end.
Definition js_le (x : R) (y : option R) : bool :=
  match y with Some y => Rleb x y | None => false end.

(** [v || 1] on an optional number: [undefined] and [0] are falsy. *)
Definition or_default (v : option R) (dflt : R) : R :=
  match v with
  | Some x => if Req_dec_T x 0 then dflt else x
  | None => dflt
  end.

(** Template-literal rendering of an integral number. *)
Definition Z_to_string (z : Z) : string := NilZero.string_of_int (Z.to_int z).

Module Math.

Definition PI : R := Rtrigo1.PI.

Definition abs (x : R) : R := Rabs x.

(** [Math.atan2(y, x)]: the angle of the point [(x, y)], in (-PI, PI]. *)
Definition atan2 (y x : R) : R :=
  if Rlt_dec 0 x then atan (y / x)
  else if Rlt_dec x 0 then
    (if Rle_dec 0 y then atan (y / x) + Rtrigo1.PI else atan (y / x) - Rtrigo1.PI)
  else if Rlt_dec 0 y then Rtrigo1.PI / 2
  else if Rlt_dec y 0 then - (Rtrigo1.PI / 2)
  else 0.

(** [Math.round]: nearest integer, ties towards +infinity. *)
Definition round (x : R) : Z := Int_part (x + / 2).

(** [Math.floor(a / b)] and [Math.ceil(a / b)] for integral [a], [b > 0]. *)
Definition floor_div (a b : Z) : Z := (a / b)%Z.
Definition ceil_div (a b : Z) : Z := (- ((- a) / b))%Z.

Definition max (a b : Z) : Z := Z.max a b.
Definition min (a b : R) : R := Rmin a b.

End Math.

(** ** Data model *)

(** A pose landmark: normalised position and optional visibility. *)
Record Landmark := {
  x : R;
  y : R;
  visibility : option R
}.

(** [results.poseLandmarks]: entries may be missing. *)
Definition Landmarks := list (option Landmark).

(** [landmarks[i]]: [undefined] beyond the end of the array. *)
Definition at_index (landmarks : Landmarks) (i : nat) : option Landmark :=
  match nth_error landmarks i with
  | Some l => l
  | None => None
  end.

(** [style.display] of an element: not yet assigned by the script, or the
    value last assigned. *)
Inductive Display := display_unset | display_none | display_block.

(** The page elements the engine writes to. *)
Record Dom := {
  neckAngle : string;          (* neckAngle.textContent *)
  statusTitle : string;        (* statusTitle.textContent *)
  statusSubtitle : string;     (* statusSubtitle.textContent *)
  postureDisplay : string;     (* postureDisplay.className *)
  postureTimer : Display;      (* postureTimer.style.display *)
  timerValue : string;         (* timerValue.textContent *)
  timerFill : option R;        (* timerFill.style.width, in percent *)
  postureAlert : Display       (* postureAlert.style.display *)
}.

(** The host environment: the table of outstanding timeouts, the next timer
    handle (handles are positive integers) and the number of times the alert
    sound was started. *)
Record Host := {
  timeouts : list positive;
  nextTimeout : positive;
  audioPlayed : nat
}.

(** The instance fields of [PoseDetector] that the engine reads and writes. *)
Record PoseDetector := {
  currentNeckAngle : R;
  poorPostureStartTime : option Z;
  poorPostureDuration : Z;
  alertShown : bool;
  alertTimeout : option positive;
  dom : Dom;
  host : Host
}.

(** [this.postureThresholds]: an object with exactly three properties. *)
Definition postureThresholds : list (string * R) :=
  [ ("perfect"%string, 180); ("good"%string, 168); ("warning"%string, 160) ].

(** Property read [o.name]: [undefined] when the object has no such property. *)
Fixpoint get (o : list (string * R)) (name : string) : option R :=
  match o with
  | [] => None
  | (k, v) :: rest => if String.eqb k name then Some v else get rest name
  end.

Definition warningDurationThreshold : Z := 10000.

(** The fields as the constructor leaves them, on a page whose elements the
    script has not touched yet. *)
Definition initialDom : Dom := {|
  neckAngle := ""; statusTitle := ""; statusSubtitle := ""; postureDisplay := "";
  postureTimer := display_unset; timerValue := ""; timerFill := None;
  postureAlert := display_unset |}.

Definition initialHost : Host :=
  {| timeouts := []; nextTimeout := 1%positive; audioPlayed := 0%nat |}.

Definition new_PoseDetector : PoseDetector := {|
  currentNeckAngle := 180;
  poorPostureStartTime := None;
  poorPostureDuration := 0%Z;
  alertShown := false;
  alertTimeout := None;
  dom := initialDom;
  host := initialHost |}.

(** *** Field assignments *)

Definition set_currentNeckAngle (v : R) (this : PoseDetector) : PoseDetector :=
  {| currentNeckAngle := v;
     poorPostureStartTime := poorPostureStartTime this;
     poorPostureDuration := poorPostureDuration this;
     alertShown := alertShown this; alertTimeout := alertTimeout this;
     dom := dom this; host := host this |}.

Definition set_poorPostureStartTime (v : option Z) (this : PoseDetector) : PoseDetector :=
  {| currentNeckAngle := currentNeckAngle this;
     poorPostureStartTime := v;
     poorPostureDuration := poorPostureDuration this;
     alertShown := alertShown this; alertTimeout := alertTimeout this;
     dom := dom this; host := host this |}.

Definition set_poorPostureDuration (v : Z) (this : PoseDetector) : PoseDetector :=
  {| currentNeckAngle := currentNeckAngle this;
     poorPostureStartTime := poorPostureStartTime this;
     poorPostureDuration := v;
     alertShown := alertShown this; alertTimeout := alertTimeout this;
     dom := dom this; host := host this |}.

Definition set_alertShown (v : bool) (this : PoseDetector) : PoseDetector :=
  {| currentNeckAngle := currentNeckAngle this;
     poorPostureStartTime := poorPostureStartTime this;
     poorPostureDuration := poorPostureDuration this;
     alertShown := v; alertTimeout := alertTimeout this;
     dom := dom this; host := host this |}.

Definition set_alertTimeout (v : option positive) (this : PoseDetector) : PoseDetector :=
  {| currentNeckAngle := currentNeckAngle this;
     poorPostureStartTime := poorPostureStartTime this;
     poorPostureDuration := poorPostureDuration this;
     alertShown := alertShown this; alertTimeout := v;
     dom := dom this; host := host this |}.

Definition set_dom (v : Dom) (this : PoseDetector) : PoseDetector :=
  {| currentNeckAngle := currentNeckAngle this;
     poorPostureStartTime := poorPostureStartTime this;
     poorPostureDuration := poorPostureDuration this;
     alertShown := alertShown this; alertTimeout := alertTimeout this;
     dom := v; host := host this |}.

Definition set_host (v : Host) (this : PoseDetector) : PoseDetector :=
  {| currentNeckAngle := currentNeckAngle this;
     poorPostureStartTime := poorPostureStartTime this;
     poorPostureDuration := poorPostureDuration this;
     alertShown := alertShown this; alertTimeout := alertTimeout this;
     dom := dom this; host := v |}.

Definition set_postureTimer (v : Display) (d : Dom) : Dom :=
  {| neckAngle := neckAngle d; statusTitle := statusTitle d;
     statusSubtitle := statusSubtitle d; postureDisplay := postureDisplay d;
     postureTimer := v; timerValue := timerValue d; timerFill := timerFill d;
     postureAlert := postureAlert d |}.

Definition set_timerValue (v : string) (d : Dom) : Dom :=
  {| neckAngle := neckAngle d; statusTitle := statusTitle d;
     statusSubtitle := statusSubtitle d; postureDisplay := postureDisplay d;
     postureTimer := postureTimer d; timerValue := v; timerFill := timerFill d;
     postureAlert := postureAlert d |}.

Definition set_timerFill (v : R) (d : Dom) : Dom :=
  {| neckAngle := neckAngle d; statusTitle := statusTitle d;
     statusSubtitle := statusSubtitle d; postureDisplay := postureDisplay d;
     postureTimer := postureTimer d; timerValue := timerValue d;
     timerFill := Some v; postureAlert := postureAlert d |}.

Definition set_postureAlert (v : Display) (d : Dom) : Dom :=
  {| neckAngle := neckAngle d; statusTitle := statusTitle d;
     statusSubtitle := statusSubtitle d; postureDisplay := postureDisplay d;
     postureTimer := postureTimer d; timerValue := timerValue d;
     timerFill := timerFill d; postureAlert := v |}.

(** *** Host operations *)

(** [clearTimeout(id)]: the timeout is no longer outstanding. *)
Definition clearTimeout (id : positive) (h : Host) : Host :=
  {| timeouts := remove Pos.eq_dec id (timeouts h);
     nextTimeout := nextTimeout h; audioPlayed := audioPlayed h |}.

(** [setTimeout(callback, 5000)]: a fresh handle becomes outstanding.  The
    class schedules one callback only, the auto-hide check of
    [showPostureAlert], so the table need not record which. *)
Definition setTimeout (h : Host) : positive * Host :=
  (nextTimeout h,
   {| timeouts := nextTimeout h :: timeouts h;
      nextTimeout := Pos.succ (nextTimeout h); audioPlayed := audioPlayed h |}).

(** [new Audio('resources/alert.mp3').play()]. *)
Definition audio_play (h : Host) : Host :=
  {| timeouts := timeouts h; nextTimeout := nextTimeout h;
     audioPlayed := S (audioPlayed h) |}.

(** ** The methods of [PoseDetector] *)

Local Open Scope string_scope.

(** The [angle] argument of [updatePostureStatus]: the number
    [this.currentNeckAngle], or the string ['?'] that [analyzePosePosture]
    passes when the keypoints are not visible. *)
Inductive AngleArg := angle_number (a : R) | angle_question_mark.

(** [`${Math.round(angle)}`]: the string ['?'] converts to NaN, [Math.round]
    returns NaN for it and the template renders that as [NaN]. *)
Definition round_text (angle : AngleArg) : string :=
  match angle with
  | angle_number a => Z_to_string (Math.round a)
  | angle_question_mark => "NaN"
  end.

(** [updatePostureStatus(quality, angle, title, subtitle)].  The status icon
    is a function of [quality] alone and is not modelled. *)
Definition updatePostureStatus (quality : string) (angle : AngleArg)
    (title subtitle : string) (this : PoseDetector) : PoseDetector :=
  set_dom
    {| neckAngle := round_text angle ++ "Â°";
       statusTitle := title;
       statusSubtitle := subtitle;
       postureDisplay := "posture-display " ++ quality;
       postureTimer := postureTimer (dom this);
       timerValue := timerValue (dom this);
       timerFill := timerFill (dom this);
       postureAlert := postureAlert (dom this) |}
    this.

(** [hidePostureAlert()]. *)
Definition hidePostureAlert (this : PoseDetector) : PoseDetector :=
  if alertShown this then
    let this := set_dom (set_postureAlert display_none (dom this)) this in
    let this := set_alertShown false this in
    match alertTimeout this with
    | Some id => set_alertTimeout None (set_host (clearTimeout id (host this)) this)
    | None => this
    end
  else this.

(** The callback that [showPostureAlert] hands to [setTimeout]: it reads
    [this.postureThresholds.fair]. *)
Definition alertTimeoutCallback (this : PoseDetector) : PoseDetector :=
  if js_le (currentNeckAngle this) (get postureThresholds "fair")
  then hidePostureAlert this
  else this.

(** [showPostureAlert()]. *)
Definition showPostureAlert (this : PoseDetector) : PoseDetector :=
  if negb (alertShown this) then
    let this := set_dom (set_postureAlert display_block (dom this)) this in
    let this := set_alertShown true this in
    let this := set_host (audio_play (host this)) this in
    let this :=
      match alertTimeout this with
      | Some id => set_host (clearTimeout id (host this)) this
      | None => this
      end in
    let (id, h) := setTimeout (host this) in
    set_alertTimeout (Some id) (set_host h this)
  else this.

(** [resetPoorPostureTimer()]. *)
Definition resetPoorPostureTimer (this : PoseDetector) : PoseDetector :=
  let this := set_poorPostureStartTime None this in
  let this := set_poorPostureDuration 0%Z this in
  let this := set_dom (set_postureTimer display_none (dom this)) this in
  hidePostureAlert this.

(** [updatePostureTimer()]. *)
Definition updatePostureTimer (this : PoseDetector) : PoseDetector :=
  match poorPostureStartTime this with
  | None => this
  | Some _ =>
    let this := set_dom (set_postureTimer display_block (dom this)) this in
    let seconds := Math.floor_div (poorPostureDuration this) 1000 in
    let this := set_dom (set_timerValue (Z_to_string seconds ++ "s") (dom this)) this in
    let progress :=
      Math.min (IZR (poorPostureDuration this) / IZR warningDurationThreshold) 1 in
    set_dom (set_timerFill (progress * 100)%R (dom this)) this
  end.

(** [handlePosturePersistence()]; [currentTime] is what [Date.now()] returns. *)
Definition handlePosturePersistence (currentTime : Z) (this : PoseDetector)
    : PoseDetector :=
  if js_ge (currentNeckAngle this) (get postureThresholds "good") then
    let subtitle := Z_to_string (Math.round (currentNeckAngle this)) ++ "Â° - Keep it up!" in
    let this := resetPoorPostureTimer this in
    updatePostureStatus "good" (angle_number (currentNeckAngle this))
      "Excellent Posture!" subtitle this
  else if js_ge (currentNeckAngle this) (get postureThresholds "warning") then
    let subtitle := Z_to_string (Math.round (currentNeckAngle this)) ++ "Â° - Could be better" in
    let this := resetPoorPostureTimer this in
    updatePostureStatus "fair" (angle_number (currentNeckAngle this))
      "Fair Posture" subtitle this
  else
    let this :=
      match poorPostureStartTime this with
      | None =>
        set_poorPostureDuration 0%Z (set_poorPostureStartTime (Some currentTime) this)
      | Some start => set_poorPostureDuration (currentTime - start)%Z this
      end in
    let remainingTime :=
      Math.max 0 (warningDurationThreshold - poorPostureDuration this) in
    let secondsRemaining := Math.ceil_div remainingTime 1000 in
    let '(title, subtitle, this) :=
      if (poorPostureDuration this >=? warningDurationThreshold)%Z then
        ("Poor Posture Alert!",
         Z_to_string (Math.round (currentNeckAngle this)) ++ "Â° - Straighten up now!",
         showPostureAlert this)
      else
        ("Poor Posture Detected",
         Z_to_string (Math.round (currentNeckAngle this)) ++ "Â° - Warning in "
           ++ Z_to_string secondsRemaining ++ "s",
         hidePostureAlert this) in
    let this := updatePostureTimer this in
    updatePostureStatus "poor" (angle_number (currentNeckAngle this))
      title subtitle this.

(** The visibility test of [analyzePosePosture]:
    [landmark && (landmark.visibility || 1) > 0.6]. *)
Definition visible (landmark : option Landmark) : bool :=
  match landmark with
  | Some l => Rgtb (or_default (visibility l) 1) (6 / 10)
  | None => false
  end.

Definition hasGoodVisibility (landmarks : Landmarks) : bool :=
  let leftEar := at_index landmarks 7 in
  let rightEar := at_index landmarks 8 in
  let leftShoulder := at_index landmarks 11 in
  let rightShoulder := at_index landmarks 12 in
  let requiredLandmarks := [leftEar; rightEar; leftShoulder; rightShoulder] in
  forallb visible requiredLandmarks.

(** The midpoint of two landmarks ([avgEar], [avgShoulder]), as [(x, y)]. *)
Definition average (a b : Landmark) : R * R :=
  ((x a + x b) / 2, (y a + y b) / 2).

(** The neck angle that [analyzePosePosture] stores in [currentNeckAngle]. *)
Definition neckAngle_of (leftEar rightEar leftShoulder rightShoulder : Landmark) : R :=
  let avgEar := average leftEar rightEar in
  let avgShoulder := average leftShoulder rightShoulder in
  let deltaX := fst avgEar - fst avgShoulder in
  let deltaY := snd avgShoulder - snd avgEar in
  let angle := Math.atan2 (Math.abs deltaX) deltaY * (180 / Math.PI) in
  180 - Math.abs angle.

(** [analyzePosePosture(landmarks)]; [now] is the clock reading taken by
    [handlePosturePersistence].  The canvas drawing at the end writes no
    field of the engine and is not modelled. *)
Definition analyzePosePosture (landmarks : Landmarks) (now : Z)
    (this : PoseDetector) : PoseDetector :=
  if negb (hasGoodVisibility landmarks) then
    let this :=
      updatePostureStatus "unknown" angle_question_mark
        "Keypoints not visible" "Position yourself within the frame" this in
    resetPoorPostureTimer this
  else
    match at_index landmarks 7, at_index landmarks 8,
          at_index landmarks 11, at_index landmarks 12 with
    | Some leftEar, Some rightEar, Some leftShoulder, Some rightShoulder =>
      let this :=
        set_currentNeckAngle
          (neckAngle_of leftEar rightEar leftShoulder rightShoulder) this in
      handlePosturePersistence now this
    | _, _, _, _ => this (* not reached: the gate found all four *)
    end.

(** ** The engine as a transition system *)

(** What happens to the engine: the pose source delivers a frame at clock
    reading [now], or the host runs the outstanding timeout [id]. *)
Inductive Event :=
| frame (landmarks : Landmarks) (now : Z)
| timeout (id : positive).

Definition step (e : Event) (this : PoseDetector) : PoseDetector :=
  match e with
  | frame landmarks now => analyzePosePosture landmarks now this
  | timeout id =>
    if in_dec Pos.eq_dec id (timeouts (host this)) then
      alertTimeoutCallback (set_host (clearTimeout id (host this)) this)
    else this
  end.

Definition run (events : list Event) (this : PoseDetector) : PoseDetector :=
  fold_left (fun this e => step e this) events this.

(** [postureDisplay.className] for a quality. *)
Definition className (quality : string) : string := "posture-display " ++ quality.

(** ** Vocabulary for the statements *)

(** The angle that a frame yields when it passes the visibility gate. *)
Definition frameAngle (landmarks : Landmarks) : option R :=
  if hasGoodVisibility landmarks then
    match at_index landmarks 7, at_index landmarks 8,
          at_index landmarks 11, at_index landmarks 12 with
    | Some leftEar, Some rightEar, Some leftShoulder, Some rightShoulder =>
      Some (neckAngle_of leftEar rightEar leftShoulder rightShoulder)
    | _, _, _, _ => None
    end
  else None.

(** A frame that passes the gate with an angle below the warning threshold. *)
Definition poorFrame (landmarks : Landmarks) : Prop :=
  exists a, frameAngle landmarks = Some a /\ (a < 160)%R.

(** Inside a run of poor frames the host may also run timeouts. *)
Definition poorEvent (e : Event) : Prop :=
  match e with
  | frame landmarks _ => poorFrame landmarks
  | timeout _ => True
  end.

(** The same, for the part of a run started at [t0] that stays below the
    warning duration. *)
Definition warmingEvent (t0 : Z) (e : Event) : Prop :=
  match e with
  | frame landmarks t =>
    poorFrame landmarks /\ (t - t0 < warningDurationThreshold)%Z
  | timeout _ => True
  end.

(** What the timer elements show for the current [poorPostureDuration]. *)
Definition timerShows (this : PoseDetector) : Prop :=
  postureTimer (dom this) = display_block /\
  timerValue (dom this)
  = Z_to_string (Math.floor_div (poorPostureDuration this) 1000) ++ "s" /\
  timerFill (dom this)
  = Some (Math.min (IZR (poorPostureDuration this) / 10000) 1 * 100)%R.




(** How the alert fields hang together: an outstanding timeout is the one
    held in [alertTimeout] and exists only while the alert is shown, and the
    alert banner is displayed only while [alertShown]. *)
Definition alertInv (this : PoseDetector) : Prop :=
  (forall id, In id (timeouts (host this)) ->
     alertShown this = true /\ alertTimeout this = Some id) /\
  (alertShown this = false -> postureAlert (dom this) <> display_block).


(** A frame whose only entries are the four required landmarks. *)
Definition pose (leftEar rightEar leftShoulder rightShoulder : Landmark) : Landmarks :=
  [None; None; None; None; None; None; None;
   Some leftEar; Some rightEar; None; None;
   Some leftShoulder; Some rightShoulder].

Definition point (px py : R) (v : option R) : Landmark :=
  {| x := px; y := py; visibility := v |}.

(** Sample frames.  The shoulders are at (0.3, 0.6) and (0.7, 0.6); both
    ears are at one point, [dx] to the side of the middle of the shoulders
    and at height [earY] (y grows downwards). *)
Definition leanPose (dx earY : R) : Landmarks :=
  let ear := point (5 / 10 + dx) earY (Some (9 / 10)) in
  pose ear ear (point (3 / 10) (6 / 10) (Some (9 / 10)))
               (point (7 / 10) (6 / 10) (Some (9 / 10))).

(** Head upright over the shoulders. *)
Definition uprightPose : Landmarks := leanPose 0 (3 / 10).

(** Ears level with the shoulders and off to the side. *)
Definition slumpedPose : Landmarks := leanPose (2 / 10) (6 / 10).

(** Ears above the shoulders, leaning by [180 - target] degrees. *)
Definition tiltedPose (target : R) : Landmarks :=
  leanPose (3 / 10 * tan ((180 - target) * (PI / 180))) (3 / 10).

(** A frame without the left ear. *)
Definition earlessPose : Landmarks :=
  [None; None; None; None; None; None; None; None;
   Some (point (6 / 10) (3 / 10) (Some (9 / 10))); None; None;
   Some (point (3 / 10) (6 / 10) (Some (9 / 10)));
   Some (point (7 / 10) (6 / 10) (Some (9 / 10)))].

(** The upright frame with the left ear reported at visibility 0. *)
Definition unseenEarPose : Landmarks :=
  pose (point (5 / 10) (3 / 10) (Some 0%R)) (point (5 / 10) (3 / 10) (Some (9 / 10)))
       (point (3 / 10) (6 / 10) (Some (9 / 10))) (point (7 / 10) (6 / 10) (Some (9 / 10))).

(** The ears below the shoulders, straight under their middle. *)
Definition invertedPose : Landmarks :=
  pose (point (5 / 10) (9 / 10) (Some (9 / 10))) (point (5 / 10) (9 / 10) (Some (9 / 10)))
       (point (3 / 10) (6 / 10) (Some (9 / 10))) (point (7 / 10) (6 / 10) (Some (9 / 10))).

(** The engine after ten seconds of slumping: the alert is up. *)
Definition alertingState : PoseDetector :=
  step (frame slumpedPose 10000) (step (frame slumpedPose 0) new_PoseDetector).

(** The alert banner is displayed while the alert is shown, and the host
    holds at most one timeout of the engine. *)
Definition bannerInv (this : PoseDetector) : Prop :=
  (alertShown this = true -> postureAlert (dom this) = display_block) /\
  (List.length (timeouts (host this)) <= 1)%nat.

(** The dwell fields and the timer element agree. *)
Definition dwellConsistent (this : PoseDetector) : Prop :=
  (poorPostureStartTime this = None /\ poorPostureDuration this = 0%Z /\
   postureTimer (dom this) <> display_block) \/
  (exists t0, poorPostureStartTime this = Some t0 /\
              postureTimer (dom this) = display_block).

(** The alert flag, the duration and the published title agree. *)
Definition alertConsistent (this : PoseDetector) : Prop :=
  alertShown this = (poorPostureDuration this >=? warningDurationThreshold)%Z /\
  (alertShown this = true ->
   statusTitle (dom this) = "Poor Posture Alert!" /\
   postureDisplay (dom this) = className "poor" /\
   poorPostureStartTime this <> None) /\
  (alertShown this = false -> statusTitle (dom this) <> "Poor Posture Alert!").


(** ** The page around the engine *)

(** Calls and assignments on the 2d context of the overlay canvas. *)
Inductive CanvasOp :=
| clearRect (x0 y0 w h : R)
| set_strokeStyle (style : string)
| set_fillStyle (style : option string)
| set_lineWidth (w : R)
| set_font (f : string)
| set_textAlign (a : string)
| setLineDash (segments : list R)
| beginPath
| moveTo (px py : R)
| lineTo (px py : R)
| arc (cx cy radius startAngle endAngle : R) (counterclockwise : bool)
| stroke
| fill
| strokeText (text : string) (px py : R)
| fillText (text : string) (px py : R).

(** How a method ends: it returns, or it throws (here always a TypeError
    from reading a property of [null] / [undefined]); either way with what
    it had done so far. *)
Inductive Outcome (A : Type) :=
| returned (a : A)
| threw (a : A).

Arguments returned {A} a.
Arguments threw {A} a.

Definition outcome_state {A : Type} (o : Outcome A) : A :=
  match o with returned a => a | threw a => a end.

(** The table of [getKeypointColor]. *)
Definition colors : list string :=
  ["#FF6B6B"; "#4ECDC4"; "#45B7D1"; "#96CEB4"; "#FFEAA7";
   "#DDA0DD"; "#98D8C8"; "#F7DC6F"; "#BB8FCE"; "#85C1E9"].

(** [getKeypointColor(index)]: [colors[index % colors.length]]. *)
Definition getKeypointColor (index : nat) : option string :=
  nth_error colors (index mod List.length colors).

(** [index === 7 || index === 8 || index === 11 || index === 12]. *)
Definition isKeypointIndex (index : nat) : bool :=
  (index =? 7)%nat || (index =? 8)%nat || (index =? 11)%nat || (index =? 12)%nat.

(** [drawConnections(landmarks)], on a canvas of width [w] and height [h]:
    the calls it makes, in order. *)
Definition drawConnections (w h : R) (landmarks : Landmarks) : list CanvasOp :=
  app [set_strokeStyle "rgba(0, 255, 255, 0.6)"; set_lineWidth 3]
  match at_index landmarks 11, at_index landmarks 12 with
  | Some startPoint, Some endPoint =>
    if Rgtb (or_default (visibility startPoint) 1) (5 / 10)
       && Rgtb (or_default (visibility endPoint) 1) (5 / 10)
    then [beginPath;
          moveTo (x startPoint * w) (y startPoint * h);
          lineTo (x endPoint * w) (y endPoint * h);
          stroke]
    else []
  | _, _ => []
  end.

(** The [forEach] of [drawPose], from [index] on: reading [landmark.x] of a
    missing entry at one of the four indices throws. *)
Fixpoint drawKeypoints (w h : R) (landmarks : Landmarks) (index : nat)
    (drawn : list CanvasOp) : Outcome (list CanvasOp) :=
  match landmarks with
  | [] => returned drawn
  | landmark :: rest =>
    if isKeypointIndex index then
      match landmark with
      | None => threw drawn
      | Some l =>
        let px := (x l * w)%R in
        let py := (y l * h)%R in
        let vis := or_default (visibility l) 1 in
        let drawn :=
          if Rgtb vis (5 / 10) then
            app drawn [beginPath; arc px py 5 0 (2 * Math.PI) false;
                       set_fillStyle (getKeypointColor index); fill;
                       set_strokeStyle "white"; set_lineWidth 2; stroke]
          else drawn in
        drawKeypoints w h rest (S index) drawn
      end
    else drawKeypoints w h rest (S index) drawn
  end.

(** [drawPose(landmarks)]. *)
Definition drawPose (w h : R) (landmarks : Landmarks) : Outcome (list CanvasOp) :=
  drawKeypoints w h landmarks 0 (drawConnections w h landmarks).

(** The colour of the shoulder-to-ear line in [drawPostureAnalysis]. *)
Definition lineColor (this : PoseDetector) : string :=
  if js_ge (currentNeckAngle this) (get postureThresholds "good")
  then "rgba(107, 207, 127, 0.8)"
  else if js_ge (currentNeckAngle this) (get postureThresholds "warning")
  then "rgba(255, 217, 61, 0.8)"
  else "rgba(255, 107, 107, 0.8)".

(** [drawAngleVisualization(shoulderX, shoulderY, earX, earY)]. *)
Definition drawAngleVisualization (this : PoseDetector)
    (shoulderX shoulderY earX earY : R) : list CanvasOp :=
  let radius := 50%R in
  let deltaX := (earX - shoulderX)%R in
  let deltaY := (earY - shoulderY)%R in
  let angleFromVertical := Math.atan2 deltaX deltaY in
  let textX :=
    (shoulderX + (if Rgtb deltaX 0 then radius + 30 else - radius - 30))%R in
  let textY := (shoulderY - 20)%R in
  let text := Z_to_string (Math.round (currentNeckAngle this)) ++ "Â°" in
  [set_strokeStyle "rgba(255, 255, 255, 0.9)"; set_lineWidth 3; beginPath;
   arc shoulderX shoulderY radius (- Math.PI / 2) angleFromVertical (Rgtb deltaX 0);
   stroke;
   set_fillStyle (Some "white"); set_font "bold 16px Arial";
   set_textAlign "center"; set_strokeStyle "rgba(0,0,0,0.7)"; set_lineWidth 3;
   strokeText text textX textY; fillText text textX textY].

(** [drawPostureAnalysis(avgEar, avgShoulder)]. *)
Definition drawPostureAnalysis (w h : R) (this : PoseDetector)
    (avgEar avgShoulder : R * R) : list CanvasOp :=
  let earX := (fst avgEar * w)%R in
  let earY := (snd avgEar * h)%R in
  let shoulderX := (fst avgShoulder * w)%R in
  let shoulderY := (snd avgShoulder * h)%R in
  app
    [set_strokeStyle "rgba(107, 207, 127, 0.8)"; set_lineWidth 2;
     setLineDash [5%R; 5%R]; beginPath;
     moveTo shoulderX (shoulderY - 100); lineTo shoulderX (shoulderY + 50); stroke;
     set_strokeStyle (lineColor this); set_lineWidth 4; setLineDash []; beginPath;
     moveTo shoulderX shoulderY; lineTo earX earY; stroke]
    (drawAngleVisualization this shoulderX shoulderY earX earY).

(** The canvas calls with which [analyzePosePosture] ends when the gate has
    passed; [this] is the engine after [handlePosturePersistence]. *)
Definition analyzePosePosture_drawing (w h : R) (landmarks : Landmarks)
    (this : PoseDetector) : list CanvasOp :=
  if hasGoodVisibility landmarks then
    match at_index landmarks 7, at_index landmarks 8,
          at_index landmarks 11, at_index landmarks 12 with
    | Some leftEar, Some rightEar, Some leftShoulder, Some rightShoulder =>
      drawPostureAnalysis w h this (average leftEar rightEar)
        (average leftShoulder rightShoulder)
    | _, _, _, _ => []
    end
  else [].

(** The frame-rate and keypoint counters. *)
Record Stats := {
  keypointCount : string;     (* keypointCount.textContent *)
  frameCount : Z;
  lastTime : R;
  fps : Z;
  fpsCounter : string         (* fpsCounter.textContent *)
}.

(** [landmarks.map((l, i) => ({ ...l, index: i }))]: the entries with their
    indices; spreading a missing entry gives an object without visibility. *)
Definition indexed (landmarks : Landmarks) : list (nat * option Landmark) :=
  combine (seq 0 (List.length landmarks)) landmarks.

Definition entryVisibility (l : option Landmark) : option R :=
  match l with
  | Some l => visibility l
  | None => None
  end.

(** The [filter] of [updatePoseStats]. *)
Definition visibleLandmarks (landmarks : Landmarks) : list (nat * option Landmark) :=
  filter (fun entry =>
            existsb (Nat.eqb (fst entry)) [7; 8; 11; 12]%nat
            && Rgtb (or_default (entryVisibility (snd entry)) 1) (5 / 10))
         (indexed landmarks).

(** [updatePoseStats(landmarks)]. *)
Definition updatePoseStats (landmarks : Landmarks) (st : Stats) : Stats :=
  {| keypointCount :=
       Z_to_string (Z.of_nat (List.length (visibleLandmarks landmarks))) ++ "/4";
     frameCount := frameCount st; lastTime := lastTime st; fps := fps st;
     fpsCounter := fpsCounter st |}.

(** [updateFPS()]; [currentTime] is what [performance.now()] returns. *)
Definition updateFPS (currentTime : R) (st : Stats) : Stats :=
  let count := (frameCount st + 1)%Z in
  if Rgeb (currentTime - lastTime st) 1000 then
    let rate := Math.round (IZR count * 1000 / (currentTime - lastTime st)) in
    {| keypointCount := keypointCount st;
       frameCount := 0; lastTime := currentTime; fps := rate;
       fpsCounter := Z_to_string rate |}
  else
    {| keypointCount := keypointCount st;
       frameCount := count; lastTime := lastTime st; fps := fps st;
       fpsCounter := fpsCounter st |}.

(** The overlay canvas: its size and the calls made on its context, oldest
    first. *)
Record Overlay := {
  canvas_width : R;
  canvas_height : R;
  ctx : list CanvasOp
}.

Definition draw (ops : list CanvasOp) (o : Overlay) : Overlay :=
  {| canvas_width := canvas_width o; canvas_height := canvas_height o;
     ctx := app (ctx o) ops |}.

(** The camera controls: the held stream (its number of tracks) or [null],
    the number of [track.stop()] calls made, the buttons, the status line,
    the panels, the camera list and the number of [startCamera] calls that
    [switchCamera] has scheduled. *)
Record Controls := {
  stream : option nat;
  tracksStopped : nat;
  video_srcObject : bool;            (* false: null *)
  startBtn_disabled : option bool;   (* None: not assigned by the script *)
  stopBtn_disabled : option bool;
  switchBtn_disabled : option bool;
  status : string;                   (* status.innerHTML *)
  poseInfo : Display;                (* poseInfo.style.display *)
  postureDisplay_style : Display;    (* postureDisplay.style.display *)
  cameras : list string;
  currentCamera : nat;
  startCameraScheduled : nat
}.

Record Page := {
  detector : PoseDetector;
  overlay : Overlay;
  stats : Stats;
  controls : Controls
}.

(** [onResults(results)]; [poseLandmarks] is [results.poseLandmarks],
    [perfNow] and [dateNow] are the clock readings taken on the way. *)
Definition onResults (poseLandmarks : option Landmarks) (perfNow : R) (dateNow : Z)
    (p : Page) : Outcome Page :=
  let w := canvas_width (overlay p) in
  let h := canvas_height (overlay p) in
  let cleared := draw [clearRect 0 0 w h] (overlay p) in
  match poseLandmarks with
  | Some (first :: others) =>
    let landmarks := first :: others in
    match drawPose w h landmarks with
    | threw drawn =>
      threw {| detector := detector p; overlay := draw drawn cleared;
               stats := stats p; controls := controls p |}
    | returned drawn =>
      let this := analyzePosePosture landmarks dateNow (detector p) in
      let analysis := analyzePosePosture_drawing w h landmarks this in
      returned {| detector := this;
                  overlay := draw analysis (draw drawn cleared);
                  stats := updateFPS perfNow (updatePoseStats landmarks (stats p));
                  controls := controls p |}
    end
  | _ =>
    returned {| detector := detector p; overlay := cleared;
                stats := updateFPS perfNow (stats p); controls := controls p |}
  end.

(** [stopCamera()]. *)
Definition stopCamera (p : Page) : Page :=
  let c := controls p in
  let w := canvas_width (overlay p) in
  let h := canvas_height (overlay p) in
  {| detector := resetPoorPostureTimer (detector p);
     overlay := draw [clearRect 0 0 w h] (overlay p);
     stats := stats p;
     controls :=
       {| stream := None;
          tracksStopped :=
            match stream c with
            | Some tracks => (tracksStopped c + tracks)%nat
            | None => tracksStopped c
            end;
          video_srcObject := false;
          startBtn_disabled := Some false;
          stopBtn_disabled := Some true;
          switchBtn_disabled := Some true;
          status := "ðŸ“· Camera stopped";
          poseInfo := display_none;
          postureDisplay_style := display_none;
          cameras := cameras c;
          currentCamera := currentCamera c;
          startCameraScheduled := startCameraScheduled c |} |}.

(** [switchCamera()]; the [startCamera] call it schedules is counted, not
    run. *)
Definition switchCamera (p : Page) : Page :=
  let c := controls p in
  if (List.length (cameras c) <=? 1)%nat then p
  else
    let next := ((currentCamera c + 1) mod List.length (cameras c))%nat in
    let p :=
      stopCamera
        {| detector := detector p; overlay := overlay p; stats := stats p;
           controls :=
             {| stream := stream c; tracksStopped := tracksStopped c;
                video_srcObject := video_srcObject c;
                startBtn_disabled := startBtn_disabled c;
                stopBtn_disabled := stopBtn_disabled c;
                switchBtn_disabled := switchBtn_disabled c;
                status := status c; poseInfo := poseInfo c;
                postureDisplay_style := postureDisplay_style c;
                cameras := cameras c; currentCamera := next;
                startCameraScheduled := startCameraScheduled c |} |} in
    let c := controls p in
    {| detector := detector p; overlay := overlay p; stats := stats p;
       controls :=
         {| stream := stream c; tracksStopped := tracksStopped c;
            video_srcObject := video_srcObject c;
            startBtn_disabled := startBtn_disabled c;
            stopBtn_disabled := stopBtn_disabled c;
            switchBtn_disabled := switchBtn_disabled c;
            status := status c; poseInfo := poseInfo c;
            postureDisplay_style := postureDisplay_style c;
            cameras := cameras c; currentCamera := currentCamera c;
            startCameraScheduled := S (startCameraScheduled c) |} |}.

(** What happens to the page: the pose model delivers results, the host
    runs an outstanding timeout of the engine, or a button is clicked. *)
Inductive PageEvent :=
| results (poseLandmarks : option Landmarks) (perfNow : R) (dateNow : Z)
| hostTimeout (id : positive)
| stopClicked
| switchClicked.

Definition pageStep (e : PageEvent) (p : Page) : Page :=
  match e with
  | results poseLandmarks perfNow dateNow =>
    outcome_state (onResults poseLandmarks perfNow dateNow p)
  | hostTimeout id =>
    {| detector := step (timeout id) (detector p); overlay := overlay p;
       stats := stats p; controls := controls p |}
  | stopClicked => stopCamera p
  | switchClicked => switchCamera p
  end.

Definition pageRun (events : list PageEvent) (p : Page) : Page :=
  fold_left (fun p e => pageStep e p) events p.

(** A page whose engine has just been constructed. *)
Definition new_Page (o : Overlay) (perfNow : R) (c : Controls) : Page :=
  {| detector := new_PoseDetector; overlay := o;
     stats := {| keypointCount := ""; frameCount := 0; lastTime := perfNow;
                 fps := 0; fpsCounter := "" |};
     controls := c |}.

(** The number of circles among canvas calls. *)
Definition circles (ops : list CanvasOp) : nat :=
  List.length (filter (fun op => match op with arc _ _ _ _ _ _ => true | _ => false end) ops).

(** The test of the [filter] in [updatePoseStats], and the filtered entries
    of an array whose first entry has index [k]. *)
Definition countsAsVisible (entry : nat * option Landmark) : bool :=
  existsb (Nat.eqb (fst entry)) [7; 8; 11; 12]%nat
  && Rgtb (or_default (entryVisibility (snd entry)) 1) (5 / 10).

Definition visibleFrom (k : nat) (landmarks : Landmarks)
    : list (nat * option Landmark) :=
  filter countsAsVisible (combine (seq k (List.length landmarks)) landmarks).

(** Results in which the pose model found nobody. *)
Definition noDetection (e : PageEvent) : Prop :=
  match e with
  | results None _ _ => True
  | results (Some []) _ _ => True
  | _ => False
  end.

(** Sample pages: a 640 by 480 overlay, idle controls with the given camera
    list, and a page around a given engine. *)
Definition sampleOverlay : Overlay :=
  {| canvas_width := 640; canvas_height := 480; ctx := [] |}.

Definition sampleControls (cams : list string) : Controls :=
  {| stream := Some 1%nat; tracksStopped := 0; video_srcObject := true;
     startBtn_disabled := Some true; stopBtn_disabled := Some false;
     switchBtn_disabled := Some false; status := "";
     poseInfo := display_block; postureDisplay_style := display_block;
     cameras := cams; currentCamera := 0; startCameraScheduled := 0 |}.

Definition pageWith (this : PoseDetector) (cams : list string) : Page :=
  {| detector := this; overlay := sampleOverlay;
     stats := {| keypointCount := ""; frameCount := 0; lastTime := 0;
                 fps := 0; fpsCounter := "" |};
     controls := sampleControls cams |}.

(** The upright frame with the left ear reported at visibility 0.55. *)
Definition dimEarPose : Landmarks :=
  pose (point (5 / 10) (3 / 10) (Some (55 / 100))) (point (5 / 10) (3 / 10) (Some (9 / 10)))
       (point (3 / 10) (6 / 10) (Some (9 / 10))) (point (7 / 10) (6 / 10) (Some (9 / 10))).

(** * Properties *)

(** ** Comparisons and property reads *)

Lemma Rgtb_true (a b : R) : Rgtb a b = true <-> a > b.
Proof. unfold Rgtb. destruct (Rgt_dec a b); split; intros; try easy. Qed.

Lemma Rgeb_true (a b : R) : Rgeb a b = true <-> a >= b.
Proof. unfold Rgeb. destruct (Rge_dec a b); split; intros; try easy. Qed.

Lemma Rgeb_false (a b : R) : Rgeb a b = false <-> a < b.
Proof.
  unfold Rgeb. destruct (Rge_dec a b); split; intros; try easy; lra.
Qed.

Lemma Rgtb_false (a b : R) : Rgtb a b = false <-> a <= b.
Proof.
  unfold Rgtb. destruct (Rgt_dec a b); split; intros; try easy; lra.
Qed.

Lemma Zgeb_false (a b : Z) : (a >=? b)%Z = false <-> (a < b)%Z.
Proof. rewrite Z.geb_leb. apply Z.leb_gt. Qed.

Lemma get_good : get postureThresholds "good" = Some 168%R.
Proof. reflexivity. Qed.

Lemma get_warning : get postureThresholds "warning" = Some 160%R.
Proof. reflexivity. Qed.

Lemma get_fair : get postureThresholds "fair" = None.
Proof. reflexivity. Qed.

(** ** Geometry of the neck angle *)

Section Geometry.

Local Open Scope R_scope.

Lemma rad_to_deg_pos : 0 < 180 / Math.PI.
Proof.
  unfold Math.PI. apply Rdiv_lt_0_compat; [lra | apply PI_RGT_0].
Qed.

(** Ear above shoulder ([deltaY > 0]): the angle is the arctangent of the
    slope. *)
Lemma atan2_above (a dy : R) : 0 < dy -> Math.atan2 a dy = atan (a / dy).
Proof.
  intros H. unfold Math.atan2. destruct (Rlt_dec 0 dy); [reflexivity | lra].
Qed.

(** Ear level with the shoulder and off the vertical: a right angle. *)
Lemma atan2_level (a : R) : 0 < a -> Math.atan2 a 0 = PI / 2.
Proof.
  intros H. unfold Math.atan2.
  destruct (Rlt_dec 0 0); [lra |].
  destruct (Rlt_dec 0 a); [reflexivity | lra].
Qed.

(** Ear below the shoulder ([deltaY < 0]). *)
Lemma atan2_below (a dy : R) :
  0 <= a -> dy < 0 -> Math.atan2 a dy = atan (a / dy) + PI.
Proof.
  intros Ha H. unfold Math.atan2.
  destruct (Rlt_dec 0 dy); [lra |].
  destruct (Rlt_dec dy 0); [| lra].
  destruct (Rle_dec 0 a); [reflexivity | lra].
Qed.

Lemma atan2_origin : Math.atan2 0 0 = 0.
Proof.
  unfold Math.atan2.
  repeat match goal with |- context [Rlt_dec ?a ?b] => destruct (Rlt_dec a b) end;
    lra.
Qed.

Lemma atan_nonneg (t : R) : 0 <= t -> 0 <= atan t.
Proof.
  intros [H | <-].
  - left. rewrite <- atan_0. now apply atan_increasing.
  - rewrite atan_0. lra.
Qed.

(** The stored angle when the averaged ear is above the averaged shoulder. *)
Lemma neckAngle_of_above (le re ls rs : Landmark) :
  0 < snd (average ls rs) - snd (average le re) ->
  neckAngle_of le re ls rs =
  180 - atan (Rabs (fst (average le re) - fst (average ls rs))
              / (snd (average ls rs) - snd (average le re)))
        * (180 / PI).
Proof.
  intros Hdy. unfold neckAngle_of, Math.abs. cbv zeta.
  rewrite atan2_above by assumption.
  rewrite Rabs_pos_eq; [reflexivity |].
  apply Rmult_le_pos; [| left; apply rad_to_deg_pos].
  apply atan_nonneg. apply Rmult_le_pos; [apply Rabs_pos |].
  left. now apply Rinv_0_lt_compat.
Qed.

Lemma neckAngle_of_vertical (le re ls rs : Landmark) :
  fst (average le re) = fst (average ls rs) ->
  snd (average le re) <= snd (average ls rs) ->
  neckAngle_of le re ls rs = 180.
Proof.
  intros Hx Hy. destruct Hy as [Hy | Hy].
  - rewrite neckAngle_of_above by lra.
    rewrite Hx, Rminus_diag, Rabs_R0. unfold Rdiv at 1.
    rewrite Rmult_0_l, atan_0. lra.
  - unfold neckAngle_of, Math.abs. cbv zeta.
    rewrite Hx, Hy, !Rminus_diag, Rabs_R0, atan2_origin.
    rewrite Rmult_0_l, Rabs_R0. lra.
Qed.


End Geometry.

(** ** The visibility gate *)

Lemma visible_above (l : Landmark) (v : R) :
  visibility l = Some v -> (6 / 10 < v)%R -> visible (Some l) = true.
Proof.
  intros Hv Hlt. unfold visible, or_default. rewrite Hv.
  destruct (Req_dec_T v 0); apply Rgtb_true; lra.
Qed.

Lemma visible_zero (l : Landmark) :
  visibility l = Some 0%R -> visible (Some l) = true.
Proof.
  intros Hv. unfold visible, or_default. rewrite Hv.
  destruct (Req_dec_T 0 0); apply Rgtb_true; lra.
Qed.

Lemma visible_low (l : Landmark) (v : R) :
  visibility l = Some v -> v <> 0%R -> (v <= 6 / 10)%R -> visible (Some l) = false.
Proof.
  intros Hv Hnz Hle. unfold visible, or_default. rewrite Hv.
  destruct (Req_dec_T v 0); [contradiction |]. now apply Rgtb_false.
Qed.

Lemma hasGoodVisibility_true (landmarks : Landmarks) :
  hasGoodVisibility landmarks = true <->
  visible (at_index landmarks 7) = true /\ visible (at_index landmarks 8) = true /\
  visible (at_index landmarks 11) = true /\ visible (at_index landmarks 12) = true.
Proof.
  unfold hasGoodVisibility. cbn [forallb].
  rewrite !andb_true_iff. tauto.
Qed.

Lemma visible_present (o : option Landmark) :
  visible o = true -> exists l, o = Some l.
Proof. destruct o; [eauto | discriminate]. Qed.

(** When the gate passes, [analyzePosePosture] stores the frame's angle and
    classifies; when it fails, it publishes "unknown" and resets. *)
Lemma analyzePosePosture_frameAngle (landmarks : Landmarks) (now : Z)
    (this : PoseDetector) :
  analyzePosePosture landmarks now this =
  match frameAngle landmarks with
  | Some a => handlePosturePersistence now (set_currentNeckAngle a this)
  | None =>
    resetPoorPostureTimer
      (updatePostureStatus "unknown" angle_question_mark
         "Keypoints not visible" "Position yourself within the frame" this)
  end.
Proof.
  unfold analyzePosePosture, frameAngle.
  destruct (hasGoodVisibility landmarks) eqn:Hg; cbn [negb]; [| reflexivity].
  apply hasGoodVisibility_true in Hg as (H7 & H8 & H11 & H12).
  apply visible_present in H7 as [? ->]. apply visible_present in H8 as [? ->].
  apply visible_present in H11 as [? ->]. apply visible_present in H12 as [? ->].
  reflexivity.
Qed.

Lemma frameAngle_None (landmarks : Landmarks) :
  frameAngle landmarks = None <-> hasGoodVisibility landmarks = false.
Proof.
  unfold frameAngle. destruct (hasGoodVisibility landmarks) eqn:Hg.
  - apply hasGoodVisibility_true in Hg as (H7 & H8 & H11 & H12).
    apply visible_present in H7 as [? ->]. apply visible_present in H8 as [? ->].
    apply visible_present in H11 as [? ->]. apply visible_present in H12 as [? ->].
    split; discriminate.
  - tauto.
Qed.

Lemma hasGoodVisibility_pose (le re ls rs : Landmark) :
  visible (Some le) = true -> visible (Some re) = true ->
  visible (Some ls) = true -> visible (Some rs) = true ->
  hasGoodVisibility (pose le re ls rs) = true.
Proof.
  intros H1 H2 H3 H4. apply hasGoodVisibility_true.
  unfold pose, at_index. cbn [nth_error]. auto.
Qed.

Lemma frameAngle_pose (le re ls rs : Landmark) :
  visible (Some le) = true -> visible (Some re) = true ->
  visible (Some ls) = true -> visible (Some rs) = true ->
  frameAngle (pose le re ls rs) = Some (neckAngle_of le re ls rs).
Proof.
  intros H1 H2 H3 H4. unfold frameAngle.
  now rewrite hasGoodVisibility_pose.
Qed.

(** ** One call of each method *)

Ltac unfold_methods :=
  unfold resetPoorPostureTimer, updatePostureTimer, updatePostureStatus,
    showPostureAlert, hidePostureAlert, setTimeout, audio_play, clearTimeout.

Ltac split_all := repeat match goal with |- _ /\ _ => split end.

(** Reduce a method call on a state whose fields are known. *)
Ltac run_methods :=
  unfold_methods;
  cbn -[Z.geb Z.sub Z.div Z.opp Z.max Z_to_string IZR Rmin Rmult Rdiv append
        remove Math.round].

(** Hiding the alert leaves the angle, the dwell fields and the timer alone. *)
Lemma hidePostureAlert_frame (this : PoseDetector) :
  let s := hidePostureAlert this in
  currentNeckAngle s = currentNeckAngle this /\
  poorPostureStartTime s = poorPostureStartTime this /\
  poorPostureDuration s = poorPostureDuration this /\
  alertShown s = false /\
  audioPlayed (host s) = audioPlayed (host this) /\
  postureTimer (dom s) = postureTimer (dom this).
Proof.
  destruct this as [a st du [|] [id|] dm h]; run_methods; auto 10.
Qed.

(** The reset path. *)
Lemma resetPoorPostureTimer_spec (this : PoseDetector) :
  let s := resetPoorPostureTimer this in
  currentNeckAngle s = currentNeckAngle this /\
  poorPostureStartTime s = None /\
  poorPostureDuration s = 0%Z /\
  alertShown s = false /\
  postureTimer (dom s) = display_none /\
  audioPlayed (host s) = audioPlayed (host this) /\
  neckAngle (dom s) = neckAngle (dom this) /\
  statusTitle (dom s) = statusTitle (dom this) /\
  statusSubtitle (dom s) = statusSubtitle (dom this) /\
  postureDisplay (dom s) = postureDisplay (dom this).
Proof.
  destruct this as [a st du [|] [id|] dm h]; run_methods; auto 12.
Qed.

(** A call with an angle at or above the warning threshold. *)
Lemma handle_not_poor (now : Z) (this : PoseDetector) :
  (160 <= currentNeckAngle this)%R ->
  let s := handlePosturePersistence now this in
  postureDisplay (dom s)
  = className (if Rge_dec (currentNeckAngle this) 168 then "good" else "fair") /\
  statusTitle (dom s)
  = (if Rge_dec (currentNeckAngle this) 168 then "Excellent Posture!" else "Fair Posture") /\
  currentNeckAngle s = currentNeckAngle this /\
  poorPostureStartTime s = None /\
  poorPostureDuration s = 0%Z /\
  alertShown s = false /\
  postureTimer (dom s) = display_none /\
  audioPlayed (host s) = audioPlayed (host this) /\
  neckAngle (dom s) = round_text (angle_number (currentNeckAngle this)) ++ "Â°".
Proof.
  intros Hge. unfold handlePosturePersistence.
  rewrite get_good, get_warning. unfold js_ge, Rgeb.
  destruct this as [a st du sh to dm h]. cbn [currentNeckAngle] in *.
  destruct (Rge_dec a 168).
  - destruct sh, to; run_methods; split_all; reflexivity.
  - destruct (Rge_dec a 160); [| lra].
    destruct sh, to; run_methods; split_all; reflexivity.
Qed.

(** A call with an angle below the warning threshold. *)
Lemma handle_poor (now : Z) (this : PoseDetector) :
  (currentNeckAngle this < 160)%R ->
  let s := handlePosturePersistence now this in
  let start := match poorPostureStartTime this with Some t0 => t0 | None => now end in
  let alerting := ((now - start) >=? warningDurationThreshold)%Z in
  postureDisplay (dom s) = className "poor" /\
  statusTitle (dom s)
  = (if alerting then "Poor Posture Alert!" else "Poor Posture Detected") /\
  currentNeckAngle s = currentNeckAngle this /\
  poorPostureStartTime s = Some start /\
  poorPostureDuration s = (now - start)%Z /\
  alertShown s = alerting /\
  audioPlayed (host s)
  = (if alerting && negb (alertShown this) then S (audioPlayed (host this))
     else audioPlayed (host this)) /\
  timerShows s /\
  neckAngle (dom s) = round_text (angle_number (currentNeckAngle this)) ++ "Â°".
Proof.
  intros Hlt. unfold handlePosturePersistence.
  rewrite get_good, get_warning. unfold js_ge, Rgeb, timerShows.
  destruct this as [a st du sh to dm h]. cbn [currentNeckAngle] in *.
  destruct (Rge_dec a 168); [lra |].
  destruct (Rge_dec a 160); [lra |].
  destruct st as [t0 |];
    cbn [poorPostureDuration poorPostureStartTime set_poorPostureDuration
         set_poorPostureStartTime].
  - destruct (now - t0 >=? warningDurationThreshold)%Z eqn:Hg;
      destruct sh, to; run_methods; split_all; reflexivity.
  - replace (now - now)%Z with 0%Z by lia.
    change (0 >=? warningDurationThreshold)%Z with false.
    destruct sh, to; run_methods; split_all; reflexivity.
Qed.

(** Raising the alert: the banner is displayed and a fresh auto-hide timeout
    is outstanding and held in [alertTimeout]. *)
Lemma handle_poor_raises (now : Z) (this : PoseDetector) :
  (currentNeckAngle this < 160)%R ->
  alertShown this = false ->
  let start := match poorPostureStartTime this with Some t0 => t0 | None => now end in
  (warningDurationThreshold <= now - start)%Z ->
  let s := handlePosturePersistence now this in
  postureAlert (dom s) = display_block /\
  alertTimeout s = Some (nextTimeout (host this)) /\
  In (nextTimeout (host this)) (timeouts (host s)).
Proof.
  intros Hlt Hal start Hold. unfold handlePosturePersistence.
  rewrite get_good, get_warning. unfold js_ge, Rgeb.
  destruct this as [a st du sh to dm h]. cbn [currentNeckAngle alertShown] in *.
  subst sh.
  destruct (Rge_dec a 168); [lra |].
  destruct (Rge_dec a 160); [lra |].
  assert (Hyes : (now - start >=? warningDurationThreshold)%Z = true)
    by now apply Z.geb_le.
  subst start. cbn [poorPostureStartTime] in Hyes.
  destruct st as [t0 |];
    cbn [poorPostureDuration poorPostureStartTime set_poorPostureDuration
         set_poorPostureStartTime].
  - rewrite Hyes. destruct to; run_methods; auto.
  - replace (now - now)%Z with 0%Z in Hyes by lia. discriminate.
Qed.

(** A poor frame below the warning duration, with no alert up, leaves the
    alert fields and the host alone. *)
Lemma handle_poor_warming (now : Z) (this : PoseDetector) :
  (currentNeckAngle this < 160)%R ->
  alertShown this = false ->
  let start := match poorPostureStartTime this with Some t0 => t0 | None => now end in
  (now - start < warningDurationThreshold)%Z ->
  let s := handlePosturePersistence now this in
  host s = host this /\ alertTimeout s = alertTimeout this /\
  postureAlert (dom s) = postureAlert (dom this).
Proof.
  intros Hlt Hal start Hyoung. unfold handlePosturePersistence.
  rewrite get_good, get_warning. unfold js_ge, Rgeb.
  destruct this as [a st du sh to dm h]. cbn [currentNeckAngle alertShown] in *.
  subst sh.
  destruct (Rge_dec a 168); [lra |].
  destruct (Rge_dec a 160); [lra |].
  assert (Hno : (now - start >=? warningDurationThreshold)%Z = false)
    by now apply Zgeb_false.
  subst start. cbn [poorPostureStartTime] in Hno.
  destruct st as [t0 |];
    cbn [poorPostureDuration poorPostureStartTime set_poorPostureDuration
         set_poorPostureStartTime].
  - rewrite Hno. run_methods. auto.
  - replace (now - now)%Z with 0%Z by lia.
    change (0 >=? warningDurationThreshold)%Z with false.
    run_methods. auto.
Qed.

(** ** The alert invariant *)

Lemma remove_all_eq (id : positive) (l : list positive) :
  (forall i, In i l -> i = id) -> remove Pos.eq_dec id l = [].
Proof.
  induction l as [| a l IH]; intros H; cbn; [reflexivity |].
  destruct (Pos.eq_dec id a) as [_ | Hne].
  - apply IH. intros i Hi. apply H. now right.
  - exfalso. apply Hne. symmetry. apply H. now left.
Qed.

Lemma no_member_nil (l : list positive) : (forall i, ~ In i l) -> l = [].
Proof.
  destruct l as [| a l]; intros H; [reflexivity |]. exfalso. apply (H a). now left.
Qed.

(** The invariant looks at four fields only. *)
Lemma alertInv_ext (s this : PoseDetector) :
  timeouts (host s) = timeouts (host this) ->
  alertShown s = alertShown this ->
  alertTimeout s = alertTimeout this ->
  postureAlert (dom s) = postureAlert (dom this) ->
  alertInv this -> alertInv s.
Proof.
  unfold alertInv. intros -> -> -> ->. trivial.
Qed.

Lemma alertInv_new : alertInv new_PoseDetector.
Proof.
  split; cbn; [contradiction | discriminate].
Qed.

(** Without the alert shown there is no outstanding timeout. *)
Lemma alertInv_hidden (this : PoseDetector) :
  alertInv this -> alertShown this = false -> timeouts (host this) = [].
Proof.
  intros [H _] Ha. apply no_member_nil. intros i Hi.
  destruct (H i Hi) as [Hs _]. congruence.
Qed.

Lemma hidePostureAlert_inv (this : PoseDetector) :
  alertInv this ->
  let s := hidePostureAlert this in
  alertInv s /\ timeouts (host s) = [] /\ postureAlert (dom s) <> display_block.
Proof.
  intros Hinv. pose proof (alertInv_hidden this Hinv) as Hnil.
  destruct Hinv as [Ht Hd].
  destruct this as [a st du sh to dm h]. cbn in Ht, Hd, Hnil.
  assert (Hclear : forall id, to = Some id ->
            remove Pos.eq_dec id (timeouts h) = []).
  { intros id ->. apply remove_all_eq. intros i Hi.
    destruct (Ht i Hi) as [_ E]. congruence. }
  destruct sh.
  - destruct to as [id |]; run_methods.
    + rewrite (Hclear id eq_refl). unfold alertInv; cbn.
      split_all; try easy.
    + assert (Hn : timeouts h = []).
      { apply no_member_nil. intros i Hi. destruct (Ht i Hi) as [_ E]. discriminate. }
      unfold alertInv; cbn. rewrite Hn. split_all; try easy.
  - run_methods. rewrite (Hnil eq_refl).
    unfold alertInv; cbn. rewrite (Hnil eq_refl). split_all; auto; easy.
Qed.

Lemma showPostureAlert_inv (this : PoseDetector) :
  alertInv this -> alertInv (showPostureAlert this).
Proof.
  intros Hinv. pose proof (alertInv_hidden this Hinv) as Hnil.
  destruct this as [a st du sh to dm h]. cbn in Hnil.
  destruct sh; [exact Hinv |].
  specialize (Hnil eq_refl).
  destruct to as [id |]; run_methods; rewrite Hnil; unfold alertInv; cbn;
    (split; [intros i [<- | []]; auto | discriminate]).
Qed.

Lemma updatePostureStatus_inv q a t sub (this : PoseDetector) :
  alertInv this -> alertInv (updatePostureStatus q a t sub this).
Proof. now apply alertInv_ext. Qed.

Lemma updatePostureTimer_inv (this : PoseDetector) :
  alertInv this -> alertInv (updatePostureTimer this).
Proof.
  unfold updatePostureTimer. destruct (poorPostureStartTime this); [| trivial].
  now apply alertInv_ext.
Qed.

Lemma resetPoorPostureTimer_inv (this : PoseDetector) :
  alertInv this ->
  let s := resetPoorPostureTimer this in
  alertInv s /\ timeouts (host s) = [] /\ postureAlert (dom s) <> display_block.
Proof.
  intros Hinv. unfold resetPoorPostureTimer. cbv zeta.
  apply hidePostureAlert_inv. revert Hinv. now apply alertInv_ext.
Qed.

Lemma handlePosturePersistence_inv (now : Z) (this : PoseDetector) :
  alertInv this -> alertInv (handlePosturePersistence now this).
Proof.
  intros Hinv. unfold handlePosturePersistence.
  destruct (js_ge _ _); [| destruct (js_ge _ _)].
  - cbv zeta. apply updatePostureStatus_inv, resetPoorPostureTimer_inv, Hinv.
  - cbv zeta. apply updatePostureStatus_inv, resetPoorPostureTimer_inv, Hinv.
  - cbv zeta.
    match goal with
    | |- context [Z.geb (poorPostureDuration ?s) _] =>
      assert (Hs : alertInv s)
        by (destruct (poorPostureStartTime this); revert Hinv; now apply alertInv_ext);
      revert Hs; generalize s; intros s1 Hs
    end.
    destruct (poorPostureDuration s1 >=? warningDurationThreshold)%Z;
      apply updatePostureStatus_inv, updatePostureTimer_inv.
    + now apply showPostureAlert_inv.
    + now apply hidePostureAlert_inv.
Qed.

Lemma analyzePosePosture_inv (landmarks : Landmarks) (now : Z) (this : PoseDetector) :
  alertInv this -> alertInv (analyzePosePosture landmarks now this).
Proof.
  intros Hinv. rewrite analyzePosePosture_frameAngle.
  destruct (frameAngle landmarks).
  - apply handlePosturePersistence_inv. revert Hinv. now apply alertInv_ext.
  - apply resetPoorPostureTimer_inv, updatePostureStatus_inv, Hinv.
Qed.

(** The auto-hide callback reads [postureThresholds.fair], which the object
    does not have: the comparison is false and nothing happens. *)
Lemma alertTimeoutCallback_id (this : PoseDetector) :
  alertTimeoutCallback this = this.
Proof. reflexivity. Qed.

Lemma step_inv (e : Event) (this : PoseDetector) :
  alertInv this -> alertInv (step e this).
Proof.
  intros Hinv. destruct e as [landmarks now | id]; cbn [step].
  - now apply analyzePosePosture_inv.
  - destruct (in_dec Pos.eq_dec id (timeouts (host this))); [| exact Hinv].
    rewrite alertTimeoutCallback_id. destruct Hinv as [Ht Hd].
    split; [| exact Hd]. cbn. intros j Hj.
    apply in_remove in Hj as [Hj _]. now apply Ht.
Qed.

Lemma run_inv (events : list Event) (this : PoseDetector) :
  alertInv this -> alertInv (run events this).
Proof.
  revert this. induction events as [| e events IH]; intros this Hinv; cbn.
  - exact Hinv.
  - apply IH. now apply step_inv.
Qed.

(** ** The sample frames *)

Section Samples.

Local Open Scope R_scope.

Lemma frameAngle_leanPose (dx earY : R) :
  frameAngle (leanPose dx earY)
  = Some (180 - Rabs (Math.atan2 (Rabs dx) (6 / 10 - earY) * (180 / PI))).
Proof.
  unfold leanPose. cbv zeta.
  rewrite frameAngle_pose;
    try (apply visible_above with (v := 9 / 10); [reflexivity | lra]).
  unfold neckAngle_of, average, point, Math.abs, Math.PI. cbn [x y fst snd].
  replace ((5 / 10 + dx + (5 / 10 + dx)) / 2 - (3 / 10 + 7 / 10) / 2) with dx by lra.
  replace ((6 / 10 + 6 / 10) / 2 - (earY + earY) / 2) with (6 / 10 - earY) by lra.
  reflexivity.
Qed.

Lemma frameAngle_upright : frameAngle uprightPose = Some 180.
Proof.
  unfold uprightPose. rewrite frameAngle_leanPose.
  rewrite atan2_above by lra.
  rewrite Rabs_R0. unfold Rdiv at 1. rewrite Rmult_0_l, atan_0.
  rewrite Rmult_0_l, Rabs_R0. f_equal. lra.
Qed.

Lemma frameAngle_slumped : frameAngle slumpedPose = Some 90.
Proof.
  unfold slumpedPose. rewrite frameAngle_leanPose.
  replace (6 / 10 - 6 / 10) with 0 by lra.
  rewrite atan2_level by (rewrite Rabs_pos_eq; lra).
  replace (PI / 2 * (180 / PI)) with 90 by (field; apply PI_neq0).
  rewrite Rabs_pos_eq by lra. f_equal. lra.
Qed.

Lemma frameAngle_tilted (target : R) :
  90 < target <= 180 -> frameAngle (tiltedPose target) = Some target.
Proof.
  intros [Hlo Hhi]. unfold tiltedPose. rewrite frameAngle_leanPose.
  pose proof PI_RGT_0 as Hpi.
  set (theta := (180 - target) * (PI / 180)).
  assert (Hth : 0 <= theta < PI / 2).
  { unfold theta. split.
    - apply Rmult_le_pos; lra.
    - replace (PI / 2) with (90 * (PI / 180)) by lra.
      apply Rmult_lt_compat_r; lra. }
  assert (Htan : 0 <= tan theta).
  { destruct Hth as [[Hpos | <-] Hlt].
    - left. now apply tan_gt_0.
    - rewrite tan_0. lra. }
  rewrite atan2_above by lra.
  rewrite (Rabs_pos_eq (3 / 10 * tan theta)) by nra.
  replace (3 / 10 * tan theta / (6 / 10 - 3 / 10)) with (tan theta) by lra.
  rewrite atan_tan by lra.
  rewrite Rabs_pos_eq.
  - f_equal. unfold theta. field. apply PI_neq0.
  - apply Rmult_le_pos; [lra |]. apply Rlt_le, Rdiv_lt_0_compat; lra.
Qed.

Lemma poorFrame_slumped : poorFrame slumpedPose.
Proof. exists 90. split; [apply frameAngle_slumped | lra]. Qed.

Lemma poorFrame_tilted (target : R) :
  90 < target < 160 -> poorFrame (tiltedPose target).
Proof.
  intros H. exists target. split; [apply frameAngle_tilted | ]; lra.
Qed.

Lemma frameAngle_earless : frameAngle earlessPose = None.
Proof. reflexivity. Qed.

Lemma frameAngle_unseenEar : frameAngle unseenEarPose = Some 180.
Proof.
  unfold unseenEarPose. rewrite frameAngle_pose;
    try (apply visible_above with (v := 9 / 10); [reflexivity | lra]);
    [| now apply visible_zero].
  f_equal. apply neckAngle_of_vertical; cbn; lra.
Qed.

End Samples.

(** ** One frame *)

Lemma frameAngle_required (landmarks : Landmarks) (le re ls rs : Landmark) :
  at_index landmarks 7 = Some le -> at_index landmarks 8 = Some re ->
  at_index landmarks 11 = Some ls -> at_index landmarks 12 = Some rs ->
  hasGoodVisibility landmarks = true ->
  frameAngle landmarks = Some (neckAngle_of le re ls rs).
Proof.
  intros H7 H8 H11 H12 Hg. unfold frameAngle. now rewrite Hg, H7, H8, H11, H12.
Qed.

(** A frame that fails the gate. *)
Lemma step_unknown (landmarks : Landmarks) (now : Z) (this : PoseDetector) :
  frameAngle landmarks = None ->
  let s := analyzePosePosture landmarks now this in
  postureDisplay (dom s) = className "unknown" /\
  statusTitle (dom s) = "Keypoints not visible" /\
  statusSubtitle (dom s) = "Position yourself within the frame" /\
  neckAngle (dom s) = round_text angle_question_mark ++ "Â°" /\
  currentNeckAngle s = currentNeckAngle this /\
  poorPostureStartTime s = None /\
  poorPostureDuration s = 0%Z /\
  alertShown s = false /\
  postureTimer (dom s) = display_none /\
  audioPlayed (host s) = audioPlayed (host this).
Proof.
  intros H. rewrite analyzePosePosture_frameAngle, H.
  destruct this as [a st du [|] [id|] dm h]; run_methods; split_all; reflexivity.
Qed.

(** A frame that passes the gate with an angle at or above the warning
    threshold. *)
Lemma step_not_poor (landmarks : Landmarks) (now : Z) (this : PoseDetector) (a : R) :
  frameAngle landmarks = Some a -> (160 <= a)%R ->
  let s := analyzePosePosture landmarks now this in
  postureDisplay (dom s) = className (if Rge_dec a 168 then "good" else "fair") /\
  statusTitle (dom s)
  = (if Rge_dec a 168 then "Excellent Posture!" else "Fair Posture") /\
  currentNeckAngle s = a /\
  poorPostureStartTime s = None /\
  poorPostureDuration s = 0%Z /\
  alertShown s = false /\
  postureTimer (dom s) = display_none /\
  audioPlayed (host s) = audioPlayed (host this) /\
  neckAngle (dom s) = round_text (angle_number a) ++ "Â°".
Proof.
  intros H Hge. rewrite analyzePosePosture_frameAngle, H.
  exact (handle_not_poor now (set_currentNeckAngle a this) Hge).
Qed.

(** A frame that passes the gate with an angle below the warning threshold. *)
Lemma step_poor (landmarks : Landmarks) (now : Z) (this : PoseDetector) (a : R) :
  frameAngle landmarks = Some a -> (a < 160)%R ->
  let s := analyzePosePosture landmarks now this in
  let start := match poorPostureStartTime this with Some t0 => t0 | None => now end in
  let alerting := ((now - start) >=? warningDurationThreshold)%Z in
  postureDisplay (dom s) = className "poor" /\
  statusTitle (dom s)
  = (if alerting then "Poor Posture Alert!" else "Poor Posture Detected") /\
  currentNeckAngle s = a /\
  poorPostureStartTime s = Some start /\
  poorPostureDuration s = (now - start)%Z /\
  alertShown s = alerting /\
  audioPlayed (host s)
  = (if alerting && negb (alertShown this) then S (audioPlayed (host this))
     else audioPlayed (host this)) /\
  timerShows s /\
  neckAngle (dom s) = round_text (angle_number a) ++ "Â°".
Proof.
  intros H Hlt. rewrite analyzePosePosture_frameAngle, H.
  exact (handle_poor now (set_currentNeckAngle a this) Hlt).
Qed.

Lemma step_poor_raises (landmarks : Landmarks) (now : Z) (this : PoseDetector) (a : R) :
  frameAngle landmarks = Some a -> (a < 160)%R ->
  alertShown this = false ->
  let start := match poorPostureStartTime this with Some t0 => t0 | None => now end in
  (warningDurationThreshold <= now - start)%Z ->
  let s := analyzePosePosture landmarks now this in
  postureAlert (dom s) = display_block /\
  alertTimeout s = Some (nextTimeout (host this)) /\
  In (nextTimeout (host this)) (timeouts (host s)).
Proof.
  intros H Hlt Hal start Hold. rewrite analyzePosePosture_frameAngle, H.
  exact (handle_poor_raises now (set_currentNeckAngle a this) Hlt Hal Hold).
Qed.

Lemma step_poor_warming (landmarks : Landmarks) (now : Z) (this : PoseDetector) (a : R) :
  frameAngle landmarks = Some a -> (a < 160)%R ->
  alertShown this = false ->
  let start := match poorPostureStartTime this with Some t0 => t0 | None => now end in
  (now - start < warningDurationThreshold)%Z ->
  let s := analyzePosePosture landmarks now this in
  host s = host this /\ alertTimeout s = alertTimeout this /\
  postureAlert (dom s) = postureAlert (dom this).
Proof.
  intros H Hlt Hal start Hyoung. rewrite analyzePosePosture_frameAngle, H.
  exact (handle_poor_warming now (set_currentNeckAngle a this) Hlt Hal Hyoung).
Qed.

(** A run of poor frames starts with no start time recorded: that is so at
    construction and after every frame that is not poor. *)
Lemma start_unset_after_not_poor (landmarks : Landmarks) (now : Z) (this : PoseDetector) :
  ~ poorFrame landmarks ->
  poorPostureStartTime new_PoseDetector = None /\
  poorPostureStartTime (step (frame landmarks now) this) = None.
Proof.
  intros Hnot. split; [reflexivity |]. cbn [step].
  destruct (frameAngle landmarks) as [a |] eqn:Ha.
  - destruct (Rlt_dec a 160) as [Hlt | Hge].
    + exfalso. apply Hnot. now exists a.
    + assert (Hge' : (160 <= a)%R) by lra.
      now destruct (step_not_poor landmarks now this a Ha Hge') as (_ & _ & _ & Hst & _).
  - now destruct (step_unknown landmarks now this Ha) as (_ & _ & _ & _ & _ & Hst & _).
Qed.

Lemma analyzePosePosture_angle (landmarks : Landmarks) (now : Z)
    (this : PoseDetector) (a : R) :
  frameAngle landmarks = Some a ->
  currentNeckAngle (analyzePosePosture landmarks now this) = a.
Proof.
  intros H. destruct (Rlt_dec a 160) as [Hlt | Hge].
  - now destruct (step_poor landmarks now this a H Hlt) as (_ & _ & Ha & _).
  - assert (Hge' : (160 <= a)%R) by lra.
    now destruct (step_not_poor landmarks now this a H Hge') as (_ & _ & Ha & _).
Qed.

(** The host running a timeout changes nothing but its own table. *)
Lemma step_timeout (id : positive) (this : PoseDetector) :
  let s := step (timeout id) this in
  currentNeckAngle s = currentNeckAngle this /\
  poorPostureStartTime s = poorPostureStartTime this /\
  poorPostureDuration s = poorPostureDuration this /\
  alertShown s = alertShown this /\
  alertTimeout s = alertTimeout this /\
  dom s = dom this /\
  audioPlayed (host s) = audioPlayed (host this).
Proof.
  cbn [step]. destruct (in_dec Pos.eq_dec id (timeouts (host this))).
  - rewrite alertTimeoutCallback_id. cbn. auto 10.
  - auto 10.
Qed.

(** A required keypoint that is absent, or whose visibility is a non-zero
    value of at most 0.6, fails the gate. *)
Lemma gate_fails (landmarks : Landmarks) (i : nat) :
  In i [7; 8; 11; 12]%nat ->
  (at_index landmarks i = None \/
   exists l v, at_index landmarks i = Some l /\ visibility l = Some v /\
               v <> 0%R /\ (v <= 6 / 10)%R) ->
  hasGoodVisibility landmarks = false.
Proof.
  intros Hi Hbad.
  assert (Hv : visible (at_index landmarks i) = false).
  { destruct Hbad as [-> | (l & v & -> & Hv & Hnz & Hle)]; [reflexivity |].
    now apply visible_low with (v := v). }
  unfold hasGoodVisibility. cbn [forallb].
  cbn in Hi. destruct Hi as [<- | [<- | [<- | [<- | []]]]]; rewrite Hv;
    rewrite ?andb_false_r; reflexivity.
Qed.

(** ** What a failed gate does *)

(** When the gate fails, for a state in which the alert fields hang
    together: "unknown" is published with its fixed texts and the dwell state
    is reset, alert and auto-hide timeout included. *)
Lemma failed_gate_resets (landmarks : Landmarks) (now : Z) (this : PoseDetector) :
  alertInv this ->
  hasGoodVisibility landmarks = false ->
  let s := analyzePosePosture landmarks now this in
  postureDisplay (dom s) = className "unknown" /\
  statusTitle (dom s) = "Keypoints not visible" /\
  statusSubtitle (dom s) = "Position yourself within the frame" /\
  poorPostureStartTime s = None /\
  poorPostureDuration s = 0%Z /\
  postureTimer (dom s) = display_none /\
  alertShown s = false /\
  postureAlert (dom s) <> display_block /\
  timeouts (host s) = [].
Proof.
  intros Hinv Hg. apply frameAngle_None in Hg.
  destruct (step_unknown landmarks now this Hg)
    as (Hq & Ht & Hsub & _ & _ & Hst & Hd & Hal & Htm & _).
  cbv zeta. split_all; auto.
  - rewrite analyzePosePosture_frameAngle, Hg.
    apply resetPoorPostureTimer_inv. now apply updatePostureStatus_inv.
  - rewrite analyzePosePosture_frameAngle, Hg.
    apply resetPoorPostureTimer_inv. now apply updatePostureStatus_inv.
Qed.

(** * The claims *)

(** ** The visibility gate (C1, C10) *)

(** C1, evaluated where it breaks: the left ear is reported with visibility
    0, which is at most 0.6, yet the frame is not published as "unknown":
    [0 || 1] is 1, the gate passes and the frame is classified "good". *)
Theorem zero_visibility_frame_is_classified :
  (exists l, at_index unseenEarPose 7 = Some l /\ visibility l = Some 0%R /\
             (0 <= 6 / 10)%R) /\
  hasGoodVisibility unseenEarPose = true /\
  postureDisplay (dom (analyzePosePosture unseenEarPose 0 new_PoseDetector))
  = className "good" /\
  statusTitle (dom (analyzePosePosture unseenEarPose 0 new_PoseDetector))
  = "Excellent Posture!".
Proof.
  pose proof frameAngle_unseenEar as Ha.
  split; [| split].
  - eexists. split; [reflexivity |]. split; [reflexivity | lra].
  - destruct (hasGoodVisibility unseenEarPose) eqn:Hg; [reflexivity |].
    apply frameAngle_None in Hg. congruence.
  - assert (Hge : (160 <= 180)%R) by lra.
    destruct (step_not_poor unseenEarPose 0 new_PoseDetector 180 Ha Hge)
      as (Hq & Ht & _).
    destruct (Rge_dec 180 168); [auto | lra].
Qed.

(** C10: when all four required keypoints are present, one of them has
    visibility exactly 0 and the others are above 0.6, the gate passes: the
    zero is replaced by 1 just as an absent visibility is, an angle is
    computed and stored, and the frame is classified, not reported
    "unknown". *)
Theorem zero_visibility_passes_gate
    (landmarks : Landmarks) (now : Z) (this : PoseDetector) (i : nat) :
  In i [7; 8; 11; 12]%nat ->
  (forall j, In j [7; 8; 11; 12]%nat ->
     exists l, at_index landmarks j = Some l /\
       if Nat.eqb j i then visibility l = Some 0%R
       else exists v, visibility l = Some v /\ (6 / 10 < v)%R) ->
  or_default (Some 0%R) 1 = or_default None 1 /\
  hasGoodVisibility landmarks = true /\
  exists a, frameAngle landmarks = Some a /\
    currentNeckAngle (analyzePosePosture landmarks now this) = a /\
    In (postureDisplay (dom (analyzePosePosture landmarks now this)))
       [className "good"; className "fair"; className "poor"].
Proof.
  intros _ Hall.
  assert (Hvis : forall j, In j [7; 8; 11; 12]%nat ->
            visible (at_index landmarks j) = true).
  { intros j Hj. destruct (Hall j Hj) as (l & -> & Hl).
    destruct (Nat.eqb j i).
    - now apply visible_zero.
    - destruct Hl as (v & Hv & Hlt). now apply visible_above with (v := v). }
  assert (Hg : hasGoodVisibility landmarks = true).
  { apply hasGoodVisibility_true. repeat split; apply Hvis; cbn; auto. }
  split; [| split; [exact Hg |]].
  - unfold or_default. destruct (Req_dec_T 0 0); [reflexivity | contradiction].
  - destruct (frameAngle landmarks) as [a |] eqn:Ha.
    + exists a. split; [reflexivity |]. split.
      * now apply analyzePosePosture_angle.
      * destruct (Rlt_dec a 160) as [Hlt | Hge].
        -- destruct (step_poor landmarks now this a Ha Hlt) as (-> & _).
           cbn. auto.
        -- assert (Hge' : (160 <= a)%R) by lra.
           destruct (step_not_poor landmarks now this a Ha Hge') as (-> & _).
           destruct (Rge_dec a 168); cbn; auto.
    + apply frameAngle_None in Ha. congruence.
Qed.

Lemma zero_visibility_passes_gate_witness :
  hasGoodVisibility unseenEarPose = true.
Proof.
  apply (zero_visibility_passes_gate unseenEarPose 0 new_PoseDetector 7).
  - cbn. auto.
  - intros j Hj. cbn in Hj.
    destruct Hj as [<- | [<- | [<- | [<- | []]]]]; cbn;
      (eexists; split; [reflexivity |]); cbn;
      [reflexivity | | |]; (eexists; split; [reflexivity | lra]).
Defined.

(** ** Classification (C5) *)

(** C5: a frame that passes the gate is classified by its angle with
    inclusive lower bounds: "good" from 168 up, "fair" from 160 up to but
    not including 168, "poor" below 160; in particular 168 itself is "good"
    and 160 itself is "fair". *)
Theorem threshold_boundaries
    (landmarks : Landmarks) (now : Z) (this : PoseDetector) (a : R) :
  frameAngle landmarks = Some a ->
  let quality := postureDisplay (dom (analyzePosePosture landmarks now this)) in
  ((168 <= a)%R -> quality = className "good") /\
  ((160 <= a < 168)%R -> quality = className "fair") /\
  ((a < 160)%R -> quality = className "poor") /\
  (a = 168%R -> quality = className "good") /\
  (a = 160%R -> quality = className "fair").
Proof.
  intros Ha quality.
  assert (Hgood : (168 <= a)%R -> quality = className "good").
  { intros H. assert (Hge : (160 <= a)%R) by lra.
    destruct (step_not_poor landmarks now this a Ha Hge) as (Hq & _).
    unfold quality. rewrite Hq. destruct (Rge_dec a 168); [reflexivity | lra]. }
  assert (Hfair : (160 <= a < 168)%R -> quality = className "fair").
  { intros [Hge Hlt].
    destruct (step_not_poor landmarks now this a Ha Hge) as (Hq & _).
    unfold quality. rewrite Hq. destruct (Rge_dec a 168); [lra | reflexivity]. }
  split_all; auto.
  - intros Hlt. now destruct (step_poor landmarks now this a Ha Hlt) as (Hq & _).
  - intros ->. apply Hgood. lra.
  - intros ->. apply Hfair. lra.
Qed.

Lemma threshold_boundaries_witness :
  postureDisplay (dom (analyzePosePosture (tiltedPose 168) 0 new_PoseDetector))
  = className "good" /\
  postureDisplay (dom (analyzePosePosture (tiltedPose 160) 0 new_PoseDetector))
  = className "fair" /\
  postureDisplay (dom (analyzePosePosture (tiltedPose 159) 0 new_PoseDetector))
  = className "poor".
Proof.
  split; [| split].
  - apply (threshold_boundaries (tiltedPose 168) 0 new_PoseDetector 168);
      [apply frameAngle_tilted; lra | reflexivity].
  - apply (threshold_boundaries (tiltedPose 160) 0 new_PoseDetector 160);
      [apply frameAngle_tilted; lra | reflexivity].
  - apply (threshold_boundaries (tiltedPose 159) 0 new_PoseDetector 159);
      [apply frameAngle_tilted; lra | lra].
Defined.

(** ** The neck angle (C7, C8) *)

Section NeckAngleClaims.

Local Open Scope R_scope.

Lemma frameAngle_inverted : frameAngle invertedPose = Some 0.
Proof.
  unfold invertedPose. rewrite frameAngle_pose;
    try (apply visible_above with (v := 9 / 10); [reflexivity | lra]).
  f_equal. unfold neckAngle_of, average, point, Math.abs, Math.PI.
  cbn [x y fst snd].
  replace ((5 / 10 + 5 / 10) / 2 - (3 / 10 + 7 / 10) / 2) with 0 by lra.
  rewrite Rabs_R0, atan2_below by lra.
  unfold Rdiv at 1. rewrite Rmult_0_l, atan_0, Rplus_0_l.
  replace (PI * (180 / PI)) with 180 by (field; apply PI_neq0).
  rewrite Rabs_pos_eq; lra.
Qed.



(** C7, as amended: for a frame that passes the gate, if the averaged ear
    and the averaged shoulder have equal x coordinates and the averaged ear
    is not below the averaged shoulder, the stored angle is 180. *)
Theorem vertical_alignment_gives_180
    (landmarks : Landmarks) (now : Z) (this : PoseDetector)
    (leftEar rightEar leftShoulder rightShoulder : Landmark) :
  at_index landmarks 7 = Some leftEar ->
  at_index landmarks 8 = Some rightEar ->
  at_index landmarks 11 = Some leftShoulder ->
  at_index landmarks 12 = Some rightShoulder ->
  hasGoodVisibility landmarks = true ->
  fst (average leftEar rightEar) = fst (average leftShoulder rightShoulder) ->
  snd (average leftEar rightEar) <= snd (average leftShoulder rightShoulder) ->
  currentNeckAngle (analyzePosePosture landmarks now this) = 180.
Proof.
  intros H7 H8 H11 H12 Hg Hx Hy.
  apply analyzePosePosture_angle.
  rewrite (frameAngle_required landmarks _ _ _ _ H7 H8 H11 H12 Hg).
  f_equal. now apply neckAngle_of_vertical.
Qed.

Lemma vertical_alignment_gives_180_witness :
  currentNeckAngle (analyzePosePosture unseenEarPose 0 new_PoseDetector) = 180.
Proof.
  apply (vertical_alignment_gives_180 unseenEarPose 0 new_PoseDetector
           (point (5 / 10) (3 / 10) (Some 0))
           (point (5 / 10) (3 / 10) (Some (9 / 10)))
           (point (3 / 10) (6 / 10) (Some (9 / 10)))
           (point (7 / 10) (6 / 10) (Some (9 / 10))));
    try reflexivity.
  - apply hasGoodVisibility_pose;
      first [ now apply visible_zero
            | apply visible_above with (v := 9 / 10); [reflexivity | lra] ].
  - cbn. lra.
  - cbn. lra.
Defined.

(** C7 as stated fails: with the ears straight below the middle of the
    shoulders the averaged x coordinates are equal, the gate passes, and
    the stored angle is 0. *)
Lemma vertical_alignment_inverted_gives_0 :
  let leftEar := point (5 / 10) (9 / 10) (Some (9 / 10)) in
  let rightEar := point (5 / 10) (9 / 10) (Some (9 / 10)) in
  let leftShoulder := point (3 / 10) (6 / 10) (Some (9 / 10)) in
  let rightShoulder := point (7 / 10) (6 / 10) (Some (9 / 10)) in
  invertedPose = pose leftEar rightEar leftShoulder rightShoulder /\
  hasGoodVisibility invertedPose = true /\
  fst (average leftEar rightEar) = fst (average leftShoulder rightShoulder) /\
  currentNeckAngle (analyzePosePosture invertedPose 0 new_PoseDetector) = 0 /\
  currentNeckAngle (analyzePosePosture invertedPose 0 new_PoseDetector) <> 180.
Proof.
  cbv zeta. pose proof frameAngle_inverted as Ha.
  pose proof (analyzePosePosture_angle invertedPose 0 new_PoseDetector 0 Ha) as Hc.
  split_all.
  - reflexivity.
  - destruct (hasGoodVisibility invertedPose) eqn:Hg; [reflexivity |].
    apply frameAngle_None in Hg. congruence.
  - cbn. lra.
  - exact Hc.
  - rewrite Hc. lra.
Qed.




End NeckAngleClaims.

(** ** The angle on an "unknown" frame (C9) *)

(** A rendered integer starts with a digit or a minus sign. *)
Lemma Z_to_string_head (z : Z) :
  exists c rest, Z_to_string z = String c rest /\ c <> "N"%char.
Proof.
  unfold Z_to_string. destruct (Z.to_int z) as [d | d]; cbn.
  - destruct d; cbn; do 2 eexists; (split; [reflexivity | discriminate]).
  - do 2 eexists. split; [reflexivity | discriminate].
Qed.

Lemma round_180 : Math.round 180 = 180%Z.
Proof.
  unfold Math.round. symmetry. apply Int_part_spec. lra.
Qed.

(** C9, as amended: when the visibility gate fails, [currentNeckAngle] keeps
    the value of the last valid computation, and the status published for
    the "unknown" frame does not report that value: the angle display is
    rendered from the placeholder ['?'] that [analyzePosePosture] passes in
    its place. *)
Theorem unknown_frame_keeps_angle_unpublished
    (landmarks : Landmarks) (now : Z) (this : PoseDetector) :
  hasGoodVisibility landmarks = false ->
  let s := analyzePosePosture landmarks now this in
  currentNeckAngle s = currentNeckAngle this /\
  postureDisplay (dom s) = className "unknown" /\
  neckAngle (dom s) = round_text angle_question_mark ++ "Â°" /\
  neckAngle (dom s) <> round_text (angle_number (currentNeckAngle this)) ++ "Â°".
Proof.
  intros Hg. apply frameAngle_None in Hg.
  destruct (step_unknown landmarks now this Hg) as (Hq & _ & _ & Hn & Hc & _).
  cbv zeta. split_all; auto.
  rewrite Hn. cbn [round_text].
  destruct (Z_to_string_head (Math.round (currentNeckAngle this)))
    as (c & rest & -> & Hc').
  cbn. intros E. injection E as E _. congruence.
Qed.

Lemma unknown_frame_keeps_angle_unpublished_witness :
  currentNeckAngle (analyzePosePosture earlessPose 0 new_PoseDetector)
  = currentNeckAngle new_PoseDetector.
Proof.
  exact (proj1 (unknown_frame_keeps_angle_unpublished earlessPose 0
                  new_PoseDetector eq_refl)).
Defined.

(** C9 as stated fails: after an upright frame has stored 180 and published
    it, a frame without the left ear leaves the stored angle at 180 but
    publishes [NaN] for the angle, not 180. *)
Lemma unknown_frame_publishes_NaN :
  let before := analyzePosePosture uprightPose 0 new_PoseDetector in
  let s := analyzePosePosture earlessPose 1000 before in
  hasGoodVisibility earlessPose = false /\
  currentNeckAngle before = 180%R /\
  neckAngle (dom before) = "180Â°" /\
  currentNeckAngle s = 180%R /\
  postureDisplay (dom s) = className "unknown" /\
  neckAngle (dom s) = "NaNÂ°" /\
  neckAngle (dom s) <> neckAngle (dom before).
Proof.
  cbv zeta.
  assert (Hge : (160 <= 180)%R) by lra.
  destruct (step_not_poor uprightPose 0 new_PoseDetector 180 frameAngle_upright Hge)
    as (_ & _ & Hc & _ & _ & _ & _ & _ & Hn).
  cbn [round_text] in Hn. rewrite round_180 in Hn.
  change (Z_to_string 180 ++ "Â°") with "180Â°" in Hn.
  destruct (step_unknown earlessPose 1000
              (analyzePosePosture uprightPose 0 new_PoseDetector)
              frameAngle_earless) as (Hq & _ & _ & Hn' & Hc' & _).
  split_all; auto.
  - congruence.
  - rewrite Hn', Hn. discriminate.
Qed.

(** ** Runs of poor frames (C2, C3) *)

Lemma run_app (events1 events2 : list Event) (this : PoseDetector) :
  run (events1 ++ events2) this = run events2 (run events1 this).
Proof. unfold run. apply fold_left_app. Qed.

Lemma run_cons (e : Event) (events : list Event) (this : PoseDetector) :
  run (e :: events) this = run events (step e this).
Proof. reflexivity. Qed.

(** [Math.floor_div] is the floor of the real quotient. *)
Lemma floor_div_floor (a b : Z) :
  (0 < b)%Z -> Math.floor_div a b = Int_part (IZR a / IZR b).
Proof.
  intros Hb. unfold Math.floor_div. apply Int_part_spec.
  assert (HbR : (0 < IZR b)%R) by now apply IZR_lt.
  pose proof (Z.mul_div_le a b Hb) as Hlo.
  pose proof (Z.mul_succ_div_gt a b Hb) as Hhi.
  apply IZR_le in Hlo. apply IZR_lt in Hhi.
  rewrite mult_IZR in Hlo. rewrite mult_IZR, succ_IZR in Hhi.
  set (q := IZR (a / b)) in *.
  assert (Ha : IZR a = (IZR a / IZR b * IZR b)%R) by (field; lra).
  set (r := (IZR a / IZR b)%R) in *.
  split; nra.
Qed.

(** [Math.ceil_div] is the ceiling of the real quotient. *)
Lemma ceil_div_ceil (a b : Z) :
  (0 < b)%Z -> Math.ceil_div a b = (- Int_part (- (IZR a / IZR b)))%Z.
Proof.
  intros Hb. unfold Math.ceil_div.
  change ((- a) / b)%Z with (Math.floor_div (- a) b).
  rewrite floor_div_floor by exact Hb.
  rewrite opp_IZR. do 2 f_equal. field.
  apply IZR_lt in Hb. lra.
Qed.

(** Within a run of poor frames the start of the run stays recorded. *)
Lemma poor_run_keeps_start (t0 : Z) (events : list Event) (this : PoseDetector) :
  poorPostureStartTime this = Some t0 ->
  Forall poorEvent events ->
  poorPostureStartTime (run events this) = Some t0.
Proof.
  revert this. induction events as [| e events IH]; intros this Hs Hall.
  - exact Hs.
  - rewrite run_cons. inversion Hall as [| ? ? He Hrest]; subst.
    apply IH; [| exact Hrest].
    destruct e as [landmarks now | id].
    + destruct He as (a & Ha & Hlt). cbn [step].
      destruct (step_poor landmarks now this a Ha Hlt) as (_ & _ & _ & Hst & _).
      now rewrite Hst, Hs.
    + destruct (step_timeout id this) as (_ & Hst & _). congruence.
Qed.

(** While the run is younger than the warning duration the alert stays
    hidden and the title is the warning title. *)
Lemma warming_run (t0 : Z) (events : list Event) (this : PoseDetector) :
  poorPostureStartTime this = Some t0 ->
  (poorPostureDuration this < warningDurationThreshold)%Z ->
  alertShown this = false ->
  statusTitle (dom this) = "Poor Posture Detected" ->
  Forall (warmingEvent t0) events ->
  let s := run events this in
  poorPostureStartTime s = Some t0 /\
  (poorPostureDuration s < warningDurationThreshold)%Z /\
  alertShown s = false /\
  statusTitle (dom s) = "Poor Posture Detected".
Proof.
  revert this. induction events as [| e events IH]; intros this Hs Hd Ha Ht Hall.
  - cbn. auto.
  - rewrite run_cons. inversion Hall as [| ? ? He Hrest]; subst.
    destruct e as [landmarks now | id].
    + destruct He as ((a & Hf & Hlt) & Hyoung). cbn [step].
      destruct (step_poor landmarks now this a Hf Hlt)
        as (_ & Htitle & _ & Hst & Hdur & Hal & _).
      rewrite Hs in *.
      assert (Hno : (now - t0 >=? warningDurationThreshold)%Z = false).
      { apply Zgeb_false. exact Hyoung. }
      rewrite Hno in *. apply IH; auto. now rewrite Hdur.
    + destruct (step_timeout id this) as (_ & Hst & Hdur & Hal & _ & Hdom & _).
      apply IH; [congruence | congruence | congruence | now rewrite Hdom | exact Hrest].
Qed.

(** C2: in a run of consecutive poor frames that begins, with no start time
    recorded, at clock reading [t0], [poorPostureDuration] is 0 after the
    first frame and [t - t0] after every later frame of the run, read at
    [t]; each time the timer is visible and shows
    [floor (poorPostureDuration / 1000)] seconds and the progress
    [min (poorPostureDuration / 10000, 1)]. *)
Theorem dwell_accumulation
    (this : PoseDetector) (landmarks0 : Landmarks) (t0 : Z)
    (between : list Event) (landmarks : Landmarks) (t : Z) :
  poorPostureStartTime this = None ->
  poorFrame landmarks0 ->
  Forall poorEvent between ->
  poorFrame landmarks ->
  let first := step (frame landmarks0 t0) this in
  let later := run (between ++ [frame landmarks t]) first in
  (poorPostureDuration first = 0%Z /\ timerShows first) /\
  (poorPostureDuration later = (t - t0)%Z /\ timerShows later) /\
  (forall s, timerShows s ->
     timerValue (dom s)
     = Z_to_string (Int_part (IZR (poorPostureDuration s) / 1000)) ++ "s" /\
     timerFill (dom s)
     = Some (Rmin (IZR (poorPostureDuration s) / 10000) 1 * 100)%R).
Proof.
  intros Hnone (a0 & Ha0 & Hlt0) Hall (a & Ha & Hlt). cbv zeta.
  cbn [step].
  destruct (step_poor landmarks0 t0 this a0 Ha0 Hlt0)
    as (_ & _ & _ & Hst & Hdur & _ & _ & Htimer & _).
  rewrite Hnone in Hst, Hdur.
  split_all.
  - rewrite Hdur. lia.
  - exact Htimer.
  - rewrite run_app, run_cons. cbn [run fold_left step].
    pose proof (poor_run_keeps_start t0 between _ Hst Hall) as Hst'.
    destruct (step_poor landmarks t (run between
                (analyzePosePosture landmarks0 t0 this)) a Ha Hlt)
      as (_ & _ & _ & _ & Hd & _).
    now rewrite Hd, Hst'.
  - rewrite run_app, run_cons. cbn [run fold_left step].
    now destruct (step_poor landmarks t (run between
                    (analyzePosePosture landmarks0 t0 this)) a Ha Hlt)
      as (_ & _ & _ & _ & _ & _ & _ & Ht & _).
  - intros s (_ & Hv & Hf). split; [| exact Hf].
    rewrite Hv. now rewrite (floor_div_floor _ 1000) by lia.
Qed.

Lemma dwell_accumulation_witness :
  poorPostureDuration
    (run ([frame slumpedPose 1000; timeout 1] ++ [frame (tiltedPose 150) 2500])
       (step (frame slumpedPose 0) new_PoseDetector))
  = (2500 - 0)%Z.
Proof.
  refine (proj1 (proj1 (proj2
    (dwell_accumulation new_PoseDetector slumpedPose 0
       [frame slumpedPose 1000; timeout 1] (tiltedPose 150) 2500
       eq_refl poorFrame_slumped _ (poorFrame_tilted 150 _))))).
  - repeat constructor. exact poorFrame_slumped.
  - lra.
Defined.

(** C3: in a run of consecutive poor frames begun at [t0], the first frame
    whose clock reading is at least 10000 ms past [t0] changes the title
    from "Poor Posture Detected" to "Poor Posture Alert!", sets [alertShown],
    displays the banner, schedules the auto-hide timeout and starts the alert
    sound exactly once; any later poor frame that finds [alertShown] still
    set starts no further sound. *)
Theorem alert_raised_once
    (this : PoseDetector) (landmarks0 : Landmarks) (t0 : Z)
    (between : list Event) (landmarks : Landmarks) (t : Z) :
  poorPostureStartTime this = None ->
  poorFrame landmarks0 ->
  Forall (warmingEvent t0) between ->
  poorFrame landmarks ->
  (warningDurationThreshold <= t - t0)%Z ->
  let before := run (frame landmarks0 t0 :: between) this in
  let after := step (frame landmarks t) before in
  (poorPostureDuration before < warningDurationThreshold)%Z /\
  statusTitle (dom before) = "Poor Posture Detected" /\
  alertShown before = false /\
  (warningDurationThreshold <= poorPostureDuration after)%Z /\
  statusTitle (dom after) = "Poor Posture Alert!" /\
  alertShown after = true /\
  audioPlayed (host after) = S (audioPlayed (host before)) /\
  postureAlert (dom after) = display_block /\
  (exists id, alertTimeout after = Some id /\ In id (timeouts (host after))) /\
  (forall (afterwards : list Event) (landmarks' : Landmarks) (t' : Z),
     Forall poorEvent afterwards ->
     poorFrame landmarks' ->
     let s := run afterwards after in
     alertShown s = true ->
     audioPlayed (host (step (frame landmarks' t') s)) = audioPlayed (host s)).
Proof.
  intros Hnone (a0 & Ha0 & Hlt0) Hall (a & Ha & Hlt) Hold. cbv zeta.
  rewrite run_cons. cbn [step].
  destruct (step_poor landmarks0 t0 this a0 Ha0 Hlt0)
    as (_ & Ht0 & _ & Hst0 & Hd0 & Hal0 & _).
  rewrite Hnone in *. replace (t0 - t0)%Z with 0%Z in * by lia.
  change (0 >=? warningDurationThreshold)%Z with false in *.
  assert (Hy0 : (poorPostureDuration (analyzePosePosture landmarks0 t0 this)
                 < warningDurationThreshold)%Z) by now rewrite Hd0.
  destruct (warming_run t0 between _ Hst0 Hy0 Hal0 Ht0 Hall)
    as (Hst & Hyoung & Hal & Htitle).
  set (before := run between (analyzePosePosture landmarks0 t0 this)) in *.
  destruct (step_poor landmarks t before a Ha Hlt)
    as (_ & Ht' & _ & _ & Hd' & Hal' & Hau & _).
  rewrite Hst, Hal in *.
  assert (Hyes : (t - t0 >=? warningDurationThreshold)%Z = true)
    by now apply Z.geb_le.
  rewrite Hyes in *. cbn [andb negb] in Hau.
  assert (Hold' : (warningDurationThreshold
                   <= t - match poorPostureStartTime before with
                          | Some t1 => t1 | None => t end)%Z)
    by now rewrite Hst.
  destruct (step_poor_raises landmarks t before a Ha Hlt Hal Hold')
    as (Hbanner & Hto & Hin).
  split_all; auto.
  - rewrite Hd'. exact Hold.
  - eauto.
  - intros afterwards landmarks' t' _ (b & Hb & Hbl) Hshown. cbn [step].
    destruct (step_poor landmarks' t'
                (run afterwards (analyzePosePosture landmarks t before)) b Hb Hbl)
      as (_ & _ & _ & _ & _ & _ & Hau' & _).
    rewrite Hau', Hshown. now rewrite andb_false_r.
Qed.


Lemma alertingState_shown :
  alertShown alertingState = true /\
  statusTitle (dom alertingState) = "Poor Posture Alert!" /\
  alertTimeout alertingState = Some 1%positive /\
  In 1%positive (timeouts (host alertingState)).
Proof.
  unfold alertingState. cbn [step].
  assert (Hlt : (90 < 160)%R) by lra.
  set (s1 := analyzePosePosture slumpedPose 0 new_PoseDetector).
  destruct (step_poor slumpedPose 0 new_PoseDetector 90 frameAngle_slumped Hlt)
    as (_ & _ & _ & Hst & _ & Hal1 & _).
  destruct (step_poor_warming slumpedPose 0 new_PoseDetector 90
              frameAngle_slumped Hlt eq_refl eq_refl) as (Hhost & _).
  fold s1 in Hst, Hal1, Hhost.
  cbn [poorPostureStartTime new_PoseDetector] in Hst, Hal1.
  change (0 - 0 >=? warningDurationThreshold)%Z with false in Hal1.
  destruct (step_poor slumpedPose 10000 s1 90 frameAngle_slumped Hlt)
    as (_ & Ht & _ & _ & _ & Hal & _).
  rewrite Hst in Hal, Ht.
  assert (Hold : (warningDurationThreshold
                  <= 10000 - match poorPostureStartTime s1 with
                             | Some t1 => t1 | None => 10000 end)%Z)
    by (rewrite Hst; unfold warningDurationThreshold; lia).
  destruct (step_poor_raises slumpedPose 10000 s1 90 frameAngle_slumped Hlt Hal1 Hold)
    as (_ & Hto & Hin).
  rewrite Hhost in Hto, Hin.
  split_all; [exact Hal | exact Ht | exact Hto | exact Hin].
Qed.

Lemma alert_raised_once_witness :
  statusTitle (dom (run [frame slumpedPose 0; frame slumpedPose 4000; timeout 1]
                      new_PoseDetector)) = "Poor Posture Detected" /\
  statusTitle (dom (step (frame (tiltedPose 150) 10000)
                      (run [frame slumpedPose 0; frame slumpedPose 4000; timeout 1]
                         new_PoseDetector))) = "Poor Posture Alert!".
Proof.
  assert (Hrun : Forall (warmingEvent 0) [frame slumpedPose 4000; timeout 1]).
  { apply Forall_cons; [split; [exact poorFrame_slumped | reflexivity] |].
    apply Forall_cons; [exact I | apply Forall_nil]. }
  assert (Hold : (warningDurationThreshold <= 10000 - 0)%Z)
    by (unfold warningDurationThreshold; lia).
  assert (Hp : poorFrame (tiltedPose 150)) by (apply poorFrame_tilted; lra).
  pose proof (alert_raised_once new_PoseDetector slumpedPose 0
                [frame slumpedPose 4000; timeout 1] (tiltedPose 150) 10000
                eq_refl poorFrame_slumped Hrun Hp Hold)
    as (_ & Hbefore & _ & _ & Hafter & _).
  split; [exact Hbefore | exact Hafter].
Defined.

(** ** Recovery (C4) *)

Lemma handle_not_poor_clears (now : Z) (this : PoseDetector) :
  alertInv this -> (160 <= currentNeckAngle this)%R ->
  let s := handlePosturePersistence now this in
  timeouts (host s) = [] /\ postureAlert (dom s) <> display_block.
Proof.
  intros Hinv Hge. unfold handlePosturePersistence.
  rewrite get_good, get_warning. unfold js_ge, Rgeb.
  destruct (resetPoorPostureTimer_inv this Hinv) as (_ & Hnil & Hblock).
  destruct (Rge_dec (currentNeckAngle this) 168).
  - cbv zeta. cbn [updatePostureStatus set_dom host dom postureAlert]. auto.
  - destruct (Rge_dec (currentNeckAngle this) 160); [| lra].
    cbv zeta. cbn [updatePostureStatus set_dom host dom postureAlert]. auto.
Qed.

(** C4: whatever happened before (in particular after any run of poor
    frames, with or without the alert up), one frame that passes the gate
    with an angle at or above the warning threshold is classified "good" or
    "fair" and leaves [poorPostureStartTime] unset, [poorPostureDuration] 0,
    the timer hidden, [alertShown] false, the alert banner not displayed and
    no auto-hide timeout outstanding. *)
Theorem recovery_resets
    (history : list Event) (landmarks : Landmarks) (now : Z) (a : R) :
  frameAngle landmarks = Some a ->
  (160 <= a)%R ->
  let s := step (frame landmarks now) (run history new_PoseDetector) in
  In (postureDisplay (dom s)) [className "good"; className "fair"] /\
  poorPostureStartTime s = None /\
  poorPostureDuration s = 0%Z /\
  postureTimer (dom s) = display_none /\
  alertShown s = false /\
  postureAlert (dom s) <> display_block /\
  timeouts (host s) = [].
Proof.
  intros Ha Hge. cbv zeta. cbn [step].
  set (before := run history new_PoseDetector).
  assert (Hinv : alertInv before) by apply run_inv, alertInv_new.
  destruct (step_not_poor landmarks now before a Ha Hge)
    as (Hq & _ & _ & Hst & Hd & Hal & Htm & _).
  assert (Hinv' : alertInv (set_currentNeckAngle a before))
    by (revert Hinv; now apply alertInv_ext).
  destruct (handle_not_poor_clears now (set_currentNeckAngle a before) Hinv' Hge)
    as (Hnil & Hblock).
  rewrite analyzePosePosture_frameAngle, Ha in *.
  split_all; auto.
  rewrite Hq. destruct (Rge_dec a 168); cbn; auto.
Qed.

Lemma recovery_resets_witness :
  alertShown (step (frame (tiltedPose 160) 11000)
                (run [frame slumpedPose 0; frame slumpedPose 10000] new_PoseDetector))
  = false /\
  alertShown (run [frame slumpedPose 0; frame slumpedPose 10000] new_PoseDetector)
  = true.
Proof.
  split.
  - assert (Ha : frameAngle (tiltedPose 160) = Some 160%R)
      by (apply frameAngle_tilted; lra).
    assert (Hge : (160 <= 160)%R) by lra.
    now destruct (recovery_resets [frame slumpedPose 0; frame slumpedPose 10000]
                    (tiltedPose 160) 11000 160 Ha Hge)
      as (_ & _ & _ & _ & Hal & _).
  - exact (proj1 alertingState_shown).
Defined.

(** ** The auto-hide timeout (C6) *)




(** * Further properties of the engine *)

(** ** The gate and the angle *)

(** X1: whatever happened before, a frame in which a required keypoint is
    absent, or has a visibility that is not 0 and is at most 0.6, is
    published as "unknown" with the fixed texts, and the dwell state is
    reset: no start time, duration 0, timer hidden, alert hidden and no
    auto-hide timeout outstanding. *)
Theorem low_visibility_frame_unknown
    (history : list Event) (landmarks : Landmarks) (now : Z) (i : nat) :
  In i [7; 8; 11; 12]%nat ->
  (at_index landmarks i = None \/
   exists l v, at_index landmarks i = Some l /\ visibility l = Some v /\
               v <> 0%R /\ (v <= 6 / 10)%R) ->
  let s := step (frame landmarks now) (run history new_PoseDetector) in
  postureDisplay (dom s) = className "unknown" /\
  statusTitle (dom s) = "Keypoints not visible" /\
  statusSubtitle (dom s) = "Position yourself within the frame" /\
  poorPostureStartTime s = None /\
  poorPostureDuration s = 0%Z /\
  postureTimer (dom s) = display_none /\
  alertShown s = false /\
  postureAlert (dom s) <> display_block /\
  timeouts (host s) = [].
Proof.
  intros Hi Hbad. cbv zeta. cbn [step].
  apply failed_gate_resets.
  - apply run_inv, alertInv_new.
  - now apply gate_fails with (i := i).
Qed.

Lemma low_visibility_frame_unknown_witness :
  postureDisplay (dom (step (frame earlessPose 11000)
                         (run [frame slumpedPose 0; frame slumpedPose 10000]
                            new_PoseDetector)))
  = className "unknown".
Proof.
  refine (proj1 (low_visibility_frame_unknown
                   [frame slumpedPose 0; frame slumpedPose 10000]
                   earlessPose 11000 7 _ _)).
  - cbn. auto.
  - left. reflexivity.
Defined.

Lemma average_comm (a b : Landmark) : average a b = average b a.
Proof. unfold average. f_equal; lra. Qed.

Lemma neckAngle_of_swap (le re ls rs : Landmark) :
  neckAngle_of re le rs ls = neckAngle_of le re ls rs.
Proof.
  unfold neckAngle_of. now rewrite (average_comm re le), (average_comm rs ls).
Qed.

(** X2: exchanging the left and right ear and the left and right shoulder
    of a frame changes nothing: the engine ends in the same state. *)
Theorem left_right_swap
    (landmarks swapped : Landmarks) (now : Z) (this : PoseDetector) :
  at_index swapped 7 = at_index landmarks 8 ->
  at_index swapped 8 = at_index landmarks 7 ->
  at_index swapped 11 = at_index landmarks 12 ->
  at_index swapped 12 = at_index landmarks 11 ->
  analyzePosePosture swapped now this = analyzePosePosture landmarks now this.
Proof.
  intros H7 H8 H11 H12. rewrite !analyzePosePosture_frameAngle.
  replace (frameAngle swapped) with (frameAngle landmarks); [reflexivity |].
  unfold frameAngle, hasGoodVisibility. cbn [forallb].
  rewrite H7, H8, H11, H12.
  destruct (at_index landmarks 7) as [le |], (at_index landmarks 8) as [re |],
    (at_index landmarks 11) as [ls |], (at_index landmarks 12) as [rs |];
    cbn [visible]; rewrite ?andb_false_r; try reflexivity.
  rewrite (neckAngle_of_swap le re ls rs).
  repeat match goal with |- context [Rgtb ?u ?v] => destruct (Rgtb u v) end;
    reflexivity.
Qed.

Lemma left_right_swap_witness :
  analyzePosePosture
    (pose (point (6 / 10) (3 / 10) (Some (9 / 10))) (point (5 / 10) (2 / 10) None)
          (point (7 / 10) (6 / 10) (Some (8 / 10))) (point (3 / 10) (5 / 10) None))
    0 new_PoseDetector
  = analyzePosePosture
      (pose (point (5 / 10) (2 / 10) None) (point (6 / 10) (3 / 10) (Some (9 / 10)))
            (point (3 / 10) (5 / 10) None) (point (7 / 10) (6 / 10) (Some (8 / 10))))
      0 new_PoseDetector.
Proof.
  apply left_right_swap; reflexivity.
Defined.

Section AngleRange.

Local Open Scope R_scope.

(** For a non-negative first argument [Math.atan2] is between 0 and PI. *)
Lemma atan2_range (a dy : R) : 0 <= a -> 0 <= Math.atan2 a dy <= PI.
Proof.
  intros Ha. pose proof PI_RGT_0 as Hpi.
  destruct (Rlt_dec 0 dy) as [Hpos | Hnpos].
  - rewrite atan2_above by assumption.
    pose proof (atan_bound (a / dy)) as [_ Hub].
    assert (0 <= atan (a / dy)).
    { apply atan_nonneg. apply Rmult_le_pos; [assumption |].
      left. now apply Rinv_0_lt_compat. }
    lra.
  - destruct (Rlt_dec dy 0) as [Hneg | Hnneg].
    + rewrite atan2_below by assumption.
      pose proof (atan_bound (a / dy)) as [Hlb _].
      assert (atan (a / dy) <= 0).
      { replace (a / dy) with (- (a / - dy)) by (field; lra).
        rewrite atan_opp.
        assert (0 <= atan (a / - dy)).
        { apply atan_nonneg. apply Rmult_le_pos; [assumption |].
          left. apply Rinv_0_lt_compat. lra. }
        lra. }
      lra.
    + assert (dy = 0) by lra. subst dy.
      destruct Ha as [Ha | <-].
      * rewrite atan2_level by assumption. lra.
      * rewrite atan2_origin. lra.
Qed.

Lemma neckAngle_of_range (le re ls rs : Landmark) :
  0 <= neckAngle_of le re ls rs <= 180.
Proof.
  unfold neckAngle_of, Math.abs, Math.PI. cbv zeta.
  set (dx := fst (average le re) - fst (average ls rs)).
  set (dy := snd (average ls rs) - snd (average le re)).
  pose proof (atan2_range (Rabs dx) dy (Rabs_pos dx)) as [Hlo Hhi].
  pose proof PI_RGT_0 as Hpi.
  pose proof rad_to_deg_pos as Hk. unfold Math.PI in Hk.
  rewrite Rabs_pos_eq by (apply Rmult_le_pos; lra).
  assert (Math.atan2 (Rabs dx) dy * (180 / PI) <= PI * (180 / PI))
    by (apply Rmult_le_compat_r; lra).
  replace (PI * (180 / PI)) with 180 in * by (field; lra).
  assert (0 <= Math.atan2 (Rabs dx) dy * (180 / PI))
    by (apply Rmult_le_pos; lra).
  lra.
Qed.

Lemma frameAngle_range (landmarks : Landmarks) (a : R) :
  frameAngle landmarks = Some a -> 0 <= a <= 180.
Proof.
  unfold frameAngle. destruct (hasGoodVisibility landmarks); [| discriminate].
  destruct (at_index landmarks 7), (at_index landmarks 8),
    (at_index landmarks 11), (at_index landmarks 12); try discriminate.
  intros [= <-]. apply neckAngle_of_range.
Qed.

Lemma step_angle_range (e : Event) (this : PoseDetector) :
  0 <= currentNeckAngle this <= 180 ->
  0 <= currentNeckAngle (step e this) <= 180.
Proof.
  intros Hr. destruct e as [landmarks now | id].
  - cbn [step]. destruct (frameAngle landmarks) as [a |] eqn:Ha.
    + rewrite (analyzePosePosture_angle landmarks now this a Ha).
      now apply frameAngle_range with (landmarks := landmarks).
    + destruct (step_unknown landmarks now this Ha) as (_ & _ & _ & _ & Hc & _).
      now rewrite Hc.
  - destruct (step_timeout id this) as (Hc & _). now rewrite Hc.
Qed.

(** X3: the stored neck angle is always between 0 and 180 degrees, after
    any history of frames and timeouts. *)
Theorem neck_angle_within_0_180 (history : list Event) :
  0 <= currentNeckAngle (run history new_PoseDetector) <= 180.
Proof.
  assert (H0 : 0 <= currentNeckAngle new_PoseDetector <= 180) by (cbn; lra).
  revert H0. generalize new_PoseDetector as this.
  induction history as [| e history IH]; intros this Hr; [exact Hr |].
  rewrite run_cons. apply IH. now apply step_angle_range.
Qed.

(** X4: when the averaged ear is not above the averaged shoulder, and the
    two midpoints do not coincide, the stored angle is at most 90 and the
    frame is classified "poor". *)
Theorem ears_not_above_shoulders_poor
    (landmarks : Landmarks) (now : Z) (this : PoseDetector)
    (leftEar rightEar leftShoulder rightShoulder : Landmark) :
  at_index landmarks 7 = Some leftEar ->
  at_index landmarks 8 = Some rightEar ->
  at_index landmarks 11 = Some leftShoulder ->
  at_index landmarks 12 = Some rightShoulder ->
  hasGoodVisibility landmarks = true ->
  snd (average leftShoulder rightShoulder) <= snd (average leftEar rightEar) ->
  average leftEar rightEar <> average leftShoulder rightShoulder ->
  let s := analyzePosePosture landmarks now this in
  currentNeckAngle s <= 90 /\ postureDisplay (dom s) = className "poor".
Proof.
  intros H7 H8 H11 H12 Hg Hy Hne. cbv zeta.
  pose proof (frameAngle_required landmarks _ _ _ _ H7 H8 H11 H12 Hg) as Ha.
  assert (Hle : neckAngle_of leftEar rightEar leftShoulder rightShoulder <= 90).
  { unfold neckAngle_of, Math.abs, Math.PI. cbv zeta.
    set (dx := fst (average leftEar rightEar) - fst (average leftShoulder rightShoulder)).
    set (dy := snd (average leftShoulder rightShoulder) - snd (average leftEar rightEar)).
    pose proof PI_RGT_0 as Hpi.
    pose proof rad_to_deg_pos as Hk. unfold Math.PI in Hk.
    assert (Hhalf : PI / 2 <= Math.atan2 (Rabs dx) dy).
    { destruct (Rlt_dec dy 0) as [Hneg | Hnneg].
      - rewrite atan2_below by (auto using Rabs_pos).
        pose proof (atan_bound (Rabs dx / dy)) as [Hlb _]. lra.
      - assert (Hdy : dy = 0) by (unfold dy in *; lra).
        rewrite Hdy. rewrite atan2_level; [lra |].
        apply Rabs_pos_lt. intros Hdx. apply Hne.
        unfold dx, dy in *.
        destruct (average leftEar rightEar), (average leftShoulder rightShoulder).
        cbn [fst snd] in *. f_equal; lra. }
    assert (PI / 2 * (180 / PI) <= Math.atan2 (Rabs dx) dy * (180 / PI))
      by (apply Rmult_le_compat_r; lra).
    replace (PI / 2 * (180 / PI)) with 90 in * by (field; lra).
    rewrite Rabs_pos_eq by lra. lra. }
  assert (Hlt : neckAngle_of leftEar rightEar leftShoulder rightShoulder < 160) by lra.
  destruct (step_poor landmarks now this _ Ha Hlt) as (Hq & _ & Hc & _).
  rewrite Hc. auto.
Qed.

Lemma ears_not_above_shoulders_poor_witness :
  postureDisplay (dom (analyzePosePosture invertedPose 0 new_PoseDetector))
  = className "poor".
Proof.
  refine (proj2 (ears_not_above_shoulders_poor invertedPose 0 new_PoseDetector
                   (point (5 / 10) (9 / 10) (Some (9 / 10)))
                   (point (5 / 10) (9 / 10) (Some (9 / 10)))
                   (point (3 / 10) (6 / 10) (Some (9 / 10)))
                   (point (7 / 10) (6 / 10) (Some (9 / 10)))
                   eq_refl eq_refl eq_refl eq_refl _ _ _)).
  - apply hasGoodVisibility_pose;
      apply visible_above with (v := 9 / 10); (reflexivity || lra).
  - cbn. lra.
  - cbn. intros E. injection E as _ E. lra.
Defined.

End AngleRange.

Section Rescaling.

Local Open Scope R_scope.





End Rescaling.

(** ** Invariants of the dwell timer and the alert *)

Lemma step_dwellConsistent (e : Event) (this : PoseDetector) :
  dwellConsistent this -> dwellConsistent (step e this).
Proof.
  intros Hinv. destruct e as [landmarks now | id].
  - cbn [step]. destruct (frameAngle landmarks) as [a |] eqn:Ha.
    + destruct (Rlt_dec a 160) as [Hlt | Hge].
      * destruct (step_poor landmarks now this a Ha Hlt)
          as (_ & _ & _ & Hst & _ & _ & _ & (Htm & _) & _).
        right. eauto.
      * assert (Hge' : (160 <= a)%R) by lra.
        destruct (step_not_poor landmarks now this a Ha Hge')
          as (_ & _ & _ & Hst & Hd & _ & Htm & _).
        left. rewrite Htm. split_all; auto. discriminate.
    + destruct (step_unknown landmarks now this Ha)
        as (_ & _ & _ & _ & _ & Hst & Hd & _ & Htm & _).
      left. rewrite Htm. split_all; auto. discriminate.
  - destruct (step_timeout id this) as (_ & Hst & Hd & _ & _ & Hdom & _).
    unfold dwellConsistent. now rewrite Hst, Hd, Hdom.
Qed.

Lemma step_alertConsistent (e : Event) (this : PoseDetector) :
  alertConsistent this -> alertConsistent (step e this).
Proof.
  intros Hinv. destruct e as [landmarks now | id].
  - clear Hinv. cbn [step]. unfold alertConsistent.
    destruct (frameAngle landmarks) as [a |] eqn:Ha.
    + destruct (Rlt_dec a 160) as [Hlt | Hge].
      * destruct (step_poor landmarks now this a Ha Hlt)
          as (Hq & Ht & _ & Hst & Hd & Hal & _).
        rewrite Hal, Hd, Ht, Hq, Hst. split; [reflexivity |].
        split.
        -- intros ->. split_all; auto. discriminate.
        -- intros ->. discriminate.
      * assert (Hge' : (160 <= a)%R) by lra.
        destruct (step_not_poor landmarks now this a Ha Hge')
          as (_ & Ht & _ & _ & Hd & Hal & _).
        rewrite Hal, Hd, Ht. split; [reflexivity |].
        split; [discriminate |]. intros _. destruct (Rge_dec a 168); discriminate.
    + destruct (step_unknown landmarks now this Ha)
        as (_ & Ht & _ & _ & _ & _ & Hd & Hal & _).
      rewrite Hal, Hd, Ht. split; [reflexivity |].
      split; discriminate.
  - destruct (step_timeout id this) as (_ & Hst & Hd & Hal & _ & Hdom & _).
    unfold alertConsistent. now rewrite Hst, Hd, Hal, Hdom.
Qed.

(** X6: after any history, [poorPostureDuration] is 0 whenever no start
    time is recorded, and the timer element is displayed exactly while a
    start time is recorded. *)
Theorem dwell_fields_consistent (history : list Event) :
  let s := run history new_PoseDetector in
  (poorPostureStartTime s = None -> poorPostureDuration s = 0%Z) /\
  (postureTimer (dom s) = display_block <-> poorPostureStartTime s <> None).
Proof.
  cbv zeta.
  assert (H : dwellConsistent (run history new_PoseDetector)).
  { assert (H0 : dwellConsistent new_PoseDetector)
      by (left; cbn; split_all; auto; discriminate).
    revert H0. generalize new_PoseDetector as this.
    induction history as [| e history IH]; intros this H0; [exact H0 |].
    rewrite run_cons. apply IH. now apply step_dwellConsistent. }
  destruct H as [(Hst & Hd & Htm) | (t0 & Hst & Htm)].
  - split; [auto |]. rewrite Hst. split; [contradiction | congruence].
  - split; [congruence |]. rewrite Hst. split; [discriminate | auto].
Qed.

(** X7: after any history, the alert is shown exactly when the recorded
    duration has reached the warning duration, and exactly when the
    published title is the alert title; while it is shown the published
    quality is "poor" and a start time is recorded. *)
Theorem alert_tracks_duration (history : list Event) :
  let s := run history new_PoseDetector in
  (alertShown s = true <->
   (warningDurationThreshold <= poorPostureDuration s)%Z) /\
  (alertShown s = true <-> statusTitle (dom s) = "Poor Posture Alert!") /\
  (alertShown s = true ->
   postureDisplay (dom s) = className "poor" /\ poorPostureStartTime s <> None).
Proof.
  cbv zeta.
  assert (H : alertConsistent (run history new_PoseDetector)).
  { assert (H0 : alertConsistent new_PoseDetector)
      by (split; [reflexivity | split; discriminate]).
    revert H0. generalize new_PoseDetector as this.
    induction history as [| e history IH]; intros this H0; [exact H0 |].
    rewrite run_cons. apply IH. now apply step_alertConsistent. }
  destruct H as (Hal & Hon & Hoff).
  split_all.
  - rewrite Hal. apply Z.geb_le.
  - split; [intros H; now apply Hon |].
    intros Ht. destruct (alertShown (run history new_PoseDetector)); [reflexivity |].
    now destruct (Hoff eq_refl).
  - intros H. now destruct (Hon H) as (_ & Hq & Hs).
Qed.

(** X8: every frame or timeout starts the alert sound once if it turns the
    alert from hidden to shown, and not at all otherwise. *)
Theorem sound_once_per_alert (e : Event) (this : PoseDetector) :
  audioPlayed (host (step e this))
  = (audioPlayed (host this)
     + (if negb (alertShown this) && alertShown (step e this) then 1 else 0))%nat.
Proof.
  destruct e as [landmarks now | id].
  - cbn [step]. destruct (frameAngle landmarks) as [a |] eqn:Ha.
    + destruct (Rlt_dec a 160) as [Hlt | Hge].
      * destruct (step_poor landmarks now this a Ha Hlt)
          as (_ & _ & _ & _ & _ & Hal & Hau & _).
        rewrite Hau, Hal, (andb_comm (negb (alertShown this))).
        destruct (_ && _); lia.
      * assert (Hge' : (160 <= a)%R) by lra.
        destruct (step_not_poor landmarks now this a Ha Hge')
          as (_ & _ & _ & _ & _ & Hal & _ & Hau & _).
        rewrite Hau, Hal, andb_false_r. lia.
    + destruct (step_unknown landmarks now this Ha)
        as (_ & _ & _ & _ & _ & _ & _ & Hal & _ & Hau).
      rewrite Hau, Hal, andb_false_r. lia.
  - destruct (step_timeout id this) as (_ & _ & _ & Hal & _ & _ & Hau).
    rewrite Hau, Hal. destruct (alertShown this); cbn; lia.
Qed.

(** ** The banner and the auto-hide timeout *)

Lemma bannerInv_ext (s this : PoseDetector) :
  timeouts (host s) = timeouts (host this) ->
  alertShown s = alertShown this ->
  postureAlert (dom s) = postureAlert (dom this) ->
  bannerInv this -> bannerInv s.
Proof.
  unfold bannerInv. intros -> -> ->. trivial.
Qed.

Lemma hidePostureAlert_banner (this : PoseDetector) :
  alertInv this -> bannerInv (hidePostureAlert this).
Proof.
  intros Hinv. destruct (hidePostureAlert_inv this Hinv) as (_ & Hnil & _).
  destruct (hidePostureAlert_frame this) as (_ & _ & _ & Hal & _).
  split; [congruence |]. rewrite Hnil. cbn. lia.
Qed.

Lemma showPostureAlert_banner (this : PoseDetector) :
  alertInv this -> bannerInv this -> bannerInv (showPostureAlert this).
Proof.
  intros Hinv Hban. pose proof (alertInv_hidden this Hinv) as Hnil.
  destruct this as [a st du sh to dm h]. cbn in Hnil.
  destruct sh; [exact Hban |].
  specialize (Hnil eq_refl).
  destruct to as [id |]; run_methods; rewrite Hnil; unfold bannerInv; cbn;
    (split; [reflexivity | lia]).
Qed.

Lemma handlePosturePersistence_banner (now : Z) (this : PoseDetector) :
  alertInv this -> bannerInv this -> bannerInv (handlePosturePersistence now this).
Proof.
  intros Hinv Hban. unfold handlePosturePersistence.
  assert (Hreset : bannerInv (resetPoorPostureTimer this)).
  { unfold resetPoorPostureTimer. cbv zeta. apply hidePostureAlert_banner.
    revert Hinv. now apply alertInv_ext. }
  destruct (js_ge _ _); [| destruct (js_ge _ _)].
  - cbv zeta. revert Hreset. now apply bannerInv_ext.
  - cbv zeta. revert Hreset. now apply bannerInv_ext.
  - cbv zeta.
    match goal with
    | |- context [Z.geb (poorPostureDuration ?s) _] =>
      assert (Hs : alertInv s /\ bannerInv s)
        by (destruct (poorPostureStartTime this);
            (split; [revert Hinv; now apply alertInv_ext
                    | revert Hban; now apply bannerInv_ext]));
      revert Hs; generalize s; intros s1 [Hs1 Hs2]
    end.
    assert (Htimer : forall s, bannerInv s -> bannerInv (updatePostureTimer s)).
    { intros s. unfold updatePostureTimer.
      destruct (poorPostureStartTime s); [| trivial]. now apply bannerInv_ext. }
    destruct (poorPostureDuration s1 >=? warningDurationThreshold)%Z.
    + assert (H : bannerInv (updatePostureTimer (showPostureAlert s1)))
        by now apply Htimer, showPostureAlert_banner.
      revert H. now apply bannerInv_ext.
    + assert (H : bannerInv (updatePostureTimer (hidePostureAlert s1)))
        by now apply Htimer, hidePostureAlert_banner.
      revert H. now apply bannerInv_ext.
Qed.

Lemma step_banner (e : Event) (this : PoseDetector) :
  alertInv this -> bannerInv this -> bannerInv (step e this).
Proof.
  intros Hinv Hban. destruct e as [landmarks now | id]; cbn [step].
  - rewrite analyzePosePosture_frameAngle. destruct (frameAngle landmarks).
    + apply handlePosturePersistence_banner.
      * revert Hinv. now apply alertInv_ext.
      * revert Hban. now apply bannerInv_ext.
    + unfold resetPoorPostureTimer. cbv zeta. apply hidePostureAlert_banner.
      revert Hinv. now apply alertInv_ext.
  - destruct (in_dec Pos.eq_dec id (timeouts (host this))) as [Hin | Hout];
      [| exact Hban].
    rewrite alertTimeoutCallback_id. destruct Hban as [Hb Hlen].
    split; [exact Hb |]. cbn.
    destruct (timeouts (host this)) as [| t1 [| t2 rest]]; cbn in *; try lia.
    destruct (Pos.eq_dec id t1); cbn; lia.
Qed.

Lemma run_banner (events : list Event) (this : PoseDetector) :
  alertInv this -> bannerInv this -> bannerInv (run events this).
Proof.
  revert this. induction events as [| e events IH]; intros this Hinv Hban;
    [exact Hban |].
  rewrite run_cons. apply IH; [now apply step_inv | now apply step_banner].
Qed.

(** X9: after any history, the alert banner is displayed exactly when
    [alertShown] is set; there is never more than one timeout outstanding,
    and an outstanding timeout is the one held in [alertTimeout], of an alert
    that is still shown. *)
Theorem banner_and_single_timeout (history : list Event) :
  let s := run history new_PoseDetector in
  (postureAlert (dom s) = display_block <-> alertShown s = true) /\
  (timeouts (host s) = [] \/
   exists id, timeouts (host s) = [id] /\ alertTimeout s = Some id /\
              alertShown s = true).
Proof.
  cbv zeta. set (s := run history new_PoseDetector).
  assert (Hinv : alertInv s) by apply run_inv, alertInv_new.
  assert (Hban : bannerInv s).
  { apply run_banner; [apply alertInv_new |].
    split; [discriminate | cbn; lia]. }
  destruct Hinv as [Ht Hd]. destruct Hban as [Hb Hlen].
  split.
  - split; [| exact Hb].
    intros Hblock. destruct (alertShown s); [reflexivity |].
    now destruct (Hd eq_refl).
  - destruct (timeouts (host s)) as [| id [| id2 rest]] eqn:E.
    + now left.
    + right. exists id. destruct (Ht id (or_introl eq_refl)) as [Ha Hto]. auto.
    + cbn in Hlen. lia.
Qed.

(** ** The countdown *)

Lemma handle_poor_subtitle (now : Z) (this : PoseDetector) :
  (currentNeckAngle this < 160)%R ->
  let s := handlePosturePersistence now this in
  (poorPostureDuration s >=? warningDurationThreshold)%Z = false ->
  statusSubtitle (dom s)
  = Z_to_string (Math.round (currentNeckAngle this)) ++ "Â° - Warning in "
    ++ Z_to_string
         (Math.ceil_div
            (Math.max 0 (warningDurationThreshold - poorPostureDuration s)) 1000)
    ++ "s".
Proof.
  intros Hlt. unfold handlePosturePersistence.
  rewrite get_good, get_warning. unfold js_ge, Rgeb.
  destruct this as [a st du sh to dm h]. cbn [currentNeckAngle] in *.
  destruct (Rge_dec a 168); [lra |].
  destruct (Rge_dec a 160); [lra |].
  destruct st as [t0 |];
    cbn [poorPostureDuration poorPostureStartTime set_poorPostureDuration
         set_poorPostureStartTime].
  - destruct (now - t0 >=? warningDurationThreshold)%Z eqn:Hg;
      destruct sh, to; run_methods; intros; (congruence || reflexivity).
  - change (0 >=? warningDurationThreshold)%Z with false.
    destruct sh, to; run_methods; intros; reflexivity.
Qed.

Lemma countdown_arith (d : Z) :
  (0 <= d < 10000)%Z ->
  Math.ceil_div (Math.max 0 (warningDurationThreshold - d)) 1000
  = (10 - Math.floor_div d 1000)%Z.
Proof.
  intros Hd. unfold Math.ceil_div, Math.max, Math.floor_div, warningDurationThreshold.
  rewrite Z.max_r by lia.
  replace (- (10000 - d))%Z with (d + (-10) * 1000)%Z by lia.
  rewrite Z.div_add by lia. lia.
Qed.

(** X10: for a poor frame whose recorded duration [d] is at least 0 and
    below the warning duration, the subtitle counts down
    [10 - floor (d / 1000)] seconds, a number from 1 to 10, while the timer
    label shows [floor (d / 1000)] seconds: the two always add up to 10. *)
Theorem countdown_complements_timer
    (landmarks : Landmarks) (now : Z) (this : PoseDetector) (a : R) :
  frameAngle landmarks = Some a -> (a < 160)%R ->
  let s := analyzePosePosture landmarks now this in
  let elapsed := Math.floor_div (poorPostureDuration s) 1000 in
  (0 <= poorPostureDuration s < warningDurationThreshold)%Z ->
  statusTitle (dom s) = "Poor Posture Detected" /\
  statusSubtitle (dom s)
  = Z_to_string (Math.round a) ++ "Â° - Warning in "
    ++ Z_to_string (10 - elapsed) ++ "s" /\
  timerValue (dom s) = Z_to_string elapsed ++ "s" /\
  (1 <= 10 - elapsed <= 10)%Z.
Proof.
  intros Ha Hlt. cbv zeta.
  destruct (step_poor landmarks now this a Ha Hlt)
    as (_ & Ht & _ & _ & Hdur & _ & _ & (_ & Htv & _) & _).
  pose proof (handle_poor_subtitle now (set_currentNeckAngle a this) Hlt) as Hsub.
  cbv zeta in Hsub. rewrite analyzePosePosture_frameAngle, Ha in *.
  rewrite <- Hdur in Ht.
  set (d := poorPostureDuration
              (handlePosturePersistence now (set_currentNeckAngle a this))) in *.
  intros Hd.
  assert (Hno : (d >=? warningDurationThreshold)%Z = false)
    by (apply Zgeb_false; lia).
  rewrite Hno in Ht. specialize (Hsub Hno).
  rewrite countdown_arith in Hsub by exact Hd.
  unfold warningDurationThreshold in Hd. unfold Math.floor_div in *.
  assert (d / 1000 < 10)%Z by (apply Z.div_lt_upper_bound; lia).
  assert (0 <= d / 1000)%Z by (apply Z.div_pos; lia).
  split_all; auto; lia.
Qed.

Lemma countdown_complements_timer_witness :
  statusSubtitle (dom (analyzePosePosture (tiltedPose 150) 0 new_PoseDetector))
  = Z_to_string (Math.round 150) ++ "Â° - Warning in "
    ++ Z_to_string
         (10 - Math.floor_div
                 (poorPostureDuration
                    (analyzePosePosture (tiltedPose 150) 0 new_PoseDetector)) 1000)
    ++ "s".
Proof.
  assert (Ha : frameAngle (tiltedPose 150) = Some 150%R)
    by (apply frameAngle_tilted; lra).
  assert (Hlt : (150 < 160)%R) by lra.
  refine (proj1 (proj2 (countdown_complements_timer (tiltedPose 150) 0
                          new_PoseDetector 150 Ha Hlt _))).
  destruct (step_poor (tiltedPose 150) 0 new_PoseDetector 150 Ha Hlt)
    as (_ & _ & _ & _ & Hd & _).
  rewrite Hd. cbn. unfold warningDurationThreshold. lia.
Defined.

(** ** Interruptions and the clock *)

Lemma timeouts_keep_dwell (ids : list positive) (this : PoseDetector) :
  let s := run (map timeout ids) this in
  poorPostureStartTime s = poorPostureStartTime this /\
  alertShown s = alertShown this.
Proof.
  revert this. induction ids as [| id ids IH]; intros this; [cbn; auto |].
  cbn [map]. rewrite run_cons.
  destruct (step_timeout id this) as (_ & Hst & _ & Hal & _).
  destruct (IH (step (timeout id) this)) as [H1 H2].
  cbv zeta. split; congruence.
Qed.

(** X11: one frame that is not poor interrupts a run of poor frames for
    good: whatever came before, the next poor frame, read at [t], starts a
    new run with start time [t], duration 0, the warning title, the alert
    hidden and the timer at zero. *)
Theorem interruption_restarts_dwell
    (history : list Event) (landmarks1 : Landmarks) (t1 : Z)
    (ids : list positive) (landmarks : Landmarks) (t : Z) :
  ~ poorFrame landmarks1 ->
  poorFrame landmarks ->
  let s := run (history ++ frame landmarks1 t1 :: map timeout ids
                        ++ [frame landmarks t]) new_PoseDetector in
  poorPostureStartTime s = Some t /\
  poorPostureDuration s = 0%Z /\
  alertShown s = false /\
  statusTitle (dom s) = "Poor Posture Detected" /\
  timerShows s.
Proof.
  intros Hnot (a & Ha & Hlt). cbv zeta.
  rewrite run_app, run_cons, run_app, run_cons. cbn [run fold_left].
  set (before := run history new_PoseDetector).
  destruct (start_unset_after_not_poor landmarks1 t1 before Hnot) as (_ & Hst1).
  destruct (timeouts_keep_dwell ids (step (frame landmarks1 t1) before))
    as (Hst2 & _).
  fold (run (map timeout ids) (step (frame landmarks1 t1) before)).
  set (s2 := run (map timeout ids) (step (frame landmarks1 t1) before)) in *.
  cbn [step].
  destruct (step_poor landmarks t s2 a Ha Hlt)
    as (_ & Ht & _ & Hst & Hd & Hal & _ & Htm & _).
  rewrite Hst2, Hst1 in *. replace (t - t)%Z with 0%Z in * by lia.
  change (0 >=? warningDurationThreshold)%Z with false in *.
  auto.
Qed.

Lemma interruption_restarts_dwell_witness :
  poorPostureStartTime
    (run ([frame slumpedPose 0; frame slumpedPose 10000]
          ++ frame uprightPose 11000 :: map timeout [1%positive]
          ++ [frame slumpedPose 12000]) new_PoseDetector)
  = Some 12000%Z.
Proof.
  refine (proj1 (interruption_restarts_dwell
                   [frame slumpedPose 0; frame slumpedPose 10000]
                   uprightPose 11000 [1%positive] slumpedPose 12000
                   _ poorFrame_slumped)).
  intros (a & Ha & Hlt). rewrite frameAngle_upright in Ha.
  injection Ha as <-. lra.
Defined.

(** X12: a poor frame whose clock reading is less than the warning duration
    past the recorded start hides a shown alert, although the posture has
    not improved: this happens when the clock has been set back. *)
Theorem clock_set_back_hides_alert
    (history : list Event) (landmarks : Landmarks) (now t0 : Z) :
  poorFrame landmarks ->
  poorPostureStartTime (run history new_PoseDetector) = Some t0 ->
  alertShown (run history new_PoseDetector) = true ->
  (now - t0 < warningDurationThreshold)%Z ->
  let s := step (frame landmarks now) (run history new_PoseDetector) in
  postureDisplay (dom s) = className "poor" /\
  statusTitle (dom s) = "Poor Posture Detected" /\
  poorPostureDuration s = (now - t0)%Z /\
  alertShown s = false /\
  postureAlert (dom s) <> display_block /\
  timeouts (host s) = [].
Proof.
  intros (a & Ha & Hlt) Hst Hshown Hback. cbv zeta.
  set (before := run history new_PoseDetector) in *.
  assert (Hinv : alertInv (step (frame landmarks now) before))
    by apply step_inv, run_inv, alertInv_new.
  cbn [step] in *.
  destruct (step_poor landmarks now before a Ha Hlt)
    as (Hq & Ht & _ & _ & Hd & Hal & _).
  rewrite Hst in *.
  assert (Hno : (now - t0 >=? warningDurationThreshold)%Z = false)
    by now apply Zgeb_false.
  rewrite Hno in *.
  split_all; auto.
  - now apply Hinv.
  - now apply alertInv_hidden.
Qed.

Lemma alertingState_start : poorPostureStartTime alertingState = Some 0%Z.
Proof.
  unfold alertingState.
  apply (poor_run_keeps_start 0 [frame slumpedPose 10000]).
  - cbn [step].
    assert (Hlt : (90 < 160)%R) by lra.
    now destruct (step_poor slumpedPose 0 new_PoseDetector 90 frameAngle_slumped Hlt)
      as (_ & _ & _ & Hst & _).
  - repeat constructor. exact poorFrame_slumped.
Qed.

Lemma clock_set_back_hides_alert_witness :
  alertShown (step (frame slumpedPose 5000)
                (run [frame slumpedPose 0; frame slumpedPose 10000] new_PoseDetector))
  = false.
Proof.
  assert (Hback : (5000 - 0 < warningDurationThreshold)%Z) by reflexivity.
  now destruct (clock_set_back_hides_alert
                  [frame slumpedPose 0; frame slumpedPose 10000]
                  slumpedPose 5000 0 poorFrame_slumped alertingState_start
                  (proj1 alertingState_shown) Hback)
    as (_ & _ & _ & Hal & _).
Defined.

(** X13: what a frame publishes as quality and as angle text depends on
    the frame alone, not on the clock or on anything that happened before. *)
Theorem published_quality_is_memoryless
    (landmarks : Landmarks) (now1 now2 : Z) (this1 this2 : PoseDetector) :
  postureDisplay (dom (analyzePosePosture landmarks now1 this1))
  = postureDisplay (dom (analyzePosePosture landmarks now2 this2)) /\
  neckAngle (dom (analyzePosePosture landmarks now1 this1))
  = neckAngle (dom (analyzePosePosture landmarks now2 this2)).
Proof.
  destruct (frameAngle landmarks) as [a |] eqn:Ha.
  - destruct (Rlt_dec a 160) as [Hlt | Hge].
    + destruct (step_poor landmarks now1 this1 a Ha Hlt)
        as (Hq1 & _ & _ & _ & _ & _ & _ & _ & Hn1).
      destruct (step_poor landmarks now2 this2 a Ha Hlt)
        as (Hq2 & _ & _ & _ & _ & _ & _ & _ & Hn2).
      split; congruence.
    + assert (Hge' : (160 <= a)%R) by lra.
      destruct (step_not_poor landmarks now1 this1 a Ha Hge')
        as (Hq1 & _ & _ & _ & _ & _ & _ & _ & Hn1).
      destruct (step_not_poor landmarks now2 this2 a Ha Hge')
        as (Hq2 & _ & _ & _ & _ & _ & _ & _ & Hn2).
      split; congruence.
  - destruct (step_unknown landmarks now1 this1 Ha) as (Hq1 & _ & _ & Hn1 & _).
    destruct (step_unknown landmarks now2 this2 Ha) as (Hq2 & _ & _ & Hn2 & _).
    split; congruence.
Qed.

(** X14: showing, hiding and resetting are idempotent: a second call in a
    row changes nothing. *)
Theorem alert_operations_idempotent (this : PoseDetector) :
  showPostureAlert (showPostureAlert this) = showPostureAlert this /\
  hidePostureAlert (hidePostureAlert this) = hidePostureAlert this /\
  resetPoorPostureTimer (resetPoorPostureTimer this) = resetPoorPostureTimer this.
Proof.
  destruct this as [a st du [|] [id |] dm h]; split_all; reflexivity.
Qed.

(** * Properties of the page around the engine *)

(** ** Drawing the analysis *)

(** X15: for every frame that passes the gate, the colour of the
    shoulder-to-ear line agrees with the published quality: green for
    "good", yellow for "fair", red for "poor"; and the line is drawn in that
    colour. *)
Theorem line_colour_matches_quality
    (w h : R) (landmarks : Landmarks) (now : Z) (before : PoseDetector) (a : R) :
  frameAngle landmarks = Some a ->
  let this := analyzePosePosture landmarks now before in
  (lineColor this = "rgba(107, 207, 127, 0.8)"
   <-> postureDisplay (dom this) = className "good") /\
  (lineColor this = "rgba(255, 217, 61, 0.8)"
   <-> postureDisplay (dom this) = className "fair") /\
  (lineColor this = "rgba(255, 107, 107, 0.8)"
   <-> postureDisplay (dom this) = className "poor") /\
  In (set_strokeStyle (lineColor this))
     (analyzePosePosture_drawing w h landmarks this).
Proof.
  intros Ha. cbv zeta.
  pose proof (analyzePosePosture_angle landmarks now before a Ha) as Hc.
  assert (Hdraw : In (set_strokeStyle
                        (lineColor (analyzePosePosture landmarks now before)))
                     (analyzePosePosture_drawing w h landmarks
                        (analyzePosePosture landmarks now before))).
  { unfold analyzePosePosture_drawing. revert Ha. unfold frameAngle.
    destruct (hasGoodVisibility landmarks); [| discriminate].
    destruct (at_index landmarks 7), (at_index landmarks 8),
      (at_index landmarks 11), (at_index landmarks 12); try discriminate.
    intros _. unfold drawPostureAnalysis. cbv zeta. apply in_or_app. left.
    cbn. auto 10. }
  split_all; [| | | exact Hdraw];
    unfold lineColor; rewrite Hc, get_good, get_warning; unfold js_ge, Rgeb;
    (destruct (Rlt_dec a 160) as [Hlt | Hge];
     [ destruct (step_poor landmarks now before a Ha Hlt) as (Hq & _)
     | assert (Hge' : (160 <= a)%R) by lra;
       destruct (step_not_poor landmarks now before a Ha Hge') as (Hq & _) ]);
    rewrite Hq;
    destruct (Rge_dec a 168); try lra;
    destruct (Rge_dec a 160); try lra;
    split; intros E; try reflexivity; cbn in E; discriminate E.
Qed.

Lemma line_colour_matches_quality_witness :
  lineColor (analyzePosePosture (tiltedPose 160) 0 new_PoseDetector)
  = "rgba(255, 217, 61, 0.8)".
Proof.
  assert (Ha : frameAngle (tiltedPose 160) = Some 160%R)
    by (apply frameAngle_tilted; lra).
  destruct (line_colour_matches_quality 640 480 (tiltedPose 160) 0
              new_PoseDetector 160 Ha) as (_ & Hfair & _).
  apply Hfair.
  assert (Hge : (160 <= 160)%R) by lra.
  destruct (step_not_poor (tiltedPose 160) 0 new_PoseDetector 160 Ha Hge)
    as (Hq & _).
  rewrite Hq. destruct (Rge_dec 160 168); [lra | reflexivity].
Defined.

(** ** Keypoint colours *)

(** X16: [getKeypointColor] gives a colour for every index, the same for
    indices that differ by 10, and four different colours for the four
    keypoints that are drawn. *)
Theorem keypoint_colours (index : nat) :
  (exists c, getKeypointColor index = Some c) /\
  getKeypointColor (index + 10) = getKeypointColor index /\
  NoDup (map getKeypointColor [7; 8; 11; 12]%nat).
Proof.
  split_all.
  - unfold getKeypointColor.
    destruct (nth_error colors (index mod List.length colors)) as [c |] eqn:E;
      [eauto |].
    apply nth_error_None in E.
    pose proof (Nat.mod_upper_bound index (List.length colors)) as Hb.
    cbn in *. lia.
  - unfold getKeypointColor. f_equal. cbn [List.length colors].
    replace (index + 10)%nat with (index + 1 * 10)%nat by lia.
    apply Nat.Div0.mod_add.
  - cbn. repeat constructor; cbn; intuition discriminate.
Qed.

(** ** The frame-rate counter *)

Lemma round_bounds (r : R) (n : Z) :
  (0 <= r <= IZR n)%R -> (0 <= Math.round r <= n)%Z.
Proof.
  intros [Hlo Hhi]. unfold Math.round.
  destruct (base_Int_part (r + / 2)) as [Hb1 Hb2].
  split.
  - assert (H : (-1 < Int_part (r + / 2))%Z) by (apply lt_IZR; lra). lia.
  - assert (H : (Int_part (r + / 2) < n + 1)%Z)
      by (apply lt_IZR; rewrite plus_IZR; lra).
    lia.
Qed.

Lemma round_IZR (n : Z) : Math.round (IZR n) = n.
Proof.
  unfold Math.round. symmetry. apply Int_part_spec. lra.
Qed.

(** X17: [updateFPS] counts calls until at least 1000 ms have passed since
    the last update; then it publishes the rounded rate, which is never
    negative and never more than the number of calls counted, and exactly
    that number when exactly 1000 ms have passed, and starts a new window at
    the current reading. *)
Theorem updateFPS_window (currentTime : R) (st : Stats) :
  (0 <= frameCount st)%Z ->
  let st' := updateFPS currentTime st in
  ((currentTime - lastTime st < 1000)%R ->
   frameCount st' = (frameCount st + 1)%Z /\ lastTime st' = lastTime st /\
   fps st' = fps st /\ fpsCounter st' = fpsCounter st) /\
  ((1000 <= currentTime - lastTime st)%R ->
   frameCount st' = 0%Z /\ lastTime st' = currentTime /\
   fpsCounter st' = Z_to_string (fps st') /\
   (0 <= fps st' <= frameCount st + 1)%Z /\
   ((currentTime - lastTime st = 1000)%R -> fps st' = (frameCount st + 1)%Z)) /\
  keypointCount st' = keypointCount st /\
  (0 <= frameCount st')%Z.
Proof.
  intros Hcount. cbv zeta. unfold updateFPS, Rgeb.
  destruct (Rge_dec (currentTime - lastTime st) 1000) as [Hge | Hlt]; cbn.
  - set (e := (currentTime - lastTime st)%R) in *.
    assert (Hn : (0 <= IZR (frameCount st + 1))%R) by (apply IZR_le; lia).
    assert (He : (0 < / e)%R) by (apply Rinv_0_lt_compat; lra).
    assert (Hb : (0 <= Math.round (IZR (frameCount st + 1) * 1000 / e)
                  <= frameCount st + 1)%Z).
    { apply round_bounds. split.
      - unfold Rdiv. apply Rmult_le_pos; [apply Rmult_le_pos; lra | lra].
      - apply Rmult_le_reg_r with (r := e); [lra |].
        unfold Rdiv. rewrite Rmult_assoc, Rinv_l by lra. nra. }
    split; [intros; lra |].
    split; [| split; [reflexivity | lia]].
    intros _. split; [reflexivity |]. split; [reflexivity |].
    split; [reflexivity |]. split; [exact Hb |].
    intros ->.
    replace (IZR (frameCount st + 1) * 1000 / 1000)%R
      with (IZR (frameCount st + 1)) by lra.
    apply round_IZR.
  - split; [intros _; auto |].
    split; [intros; lra |]. split; [reflexivity | lia].
Qed.

Lemma updateFPS_window_witness :
  fps (updateFPS 2000 {| keypointCount := ""; frameCount := 29; lastTime := 1000;
                         fps := 0; fpsCounter := "" |}) = 30%Z.
Proof.
  refine (proj2 (proj2 (proj2 (proj2 (proj1 (proj2
    (updateFPS_window 2000
       {| keypointCount := ""; frameCount := 29; lastTime := 1000;
          fps := 0; fpsCounter := "" |} _)) _)))) _);
    cbn; (lia || lra).
Defined.

(** ** The keypoint counter and the keypoint circles *)

Lemma visibleLandmarks_from (landmarks : Landmarks) :
  visibleLandmarks landmarks = visibleFrom 0 landmarks.
Proof. reflexivity. Qed.

Lemma visibleFrom_cons (k : nat) (e : option Landmark) (l : Landmarks) :
  visibleFrom k (e :: l)
  = if countsAsVisible (k, e) then (k, e) :: visibleFrom (S k) l
    else visibleFrom (S k) l.
Proof. reflexivity. Qed.

Lemma isKeypointIndex_spec (k : nat) :
  isKeypointIndex k = true <-> In k [7; 8; 11; 12]%nat.
Proof.
  unfold isKeypointIndex. rewrite !orb_true_iff, !Nat.eqb_eq. cbn.
  intuition congruence.
Qed.

Lemma includes_isKeypointIndex (k : nat) :
  existsb (Nat.eqb k) [7; 8; 11; 12]%nat = isKeypointIndex k.
Proof.
  unfold isKeypointIndex. cbn.
  destruct (k =? 7)%nat, (k =? 8)%nat, (k =? 11)%nat, (k =? 12)%nat; reflexivity.
Qed.

Lemma visibleFrom_bound (k : nat) (l : Landmarks) :
  (List.length (visibleFrom k l)
   <= List.length (filter (Nat.leb k) [7; 8; 11; 12]))%nat.
Proof.
  revert k. induction l as [| e l IH]; intros k; [cbn; lia |].
  rewrite visibleFrom_cons. specialize (IH (S k)).
  assert (Hmono : (List.length (filter (Nat.leb (S k)) [7; 8; 11; 12])
                   <= List.length (filter (Nat.leb k) [7; 8; 11; 12]))%nat).
  { cbn [filter].
    repeat match goal with
           | |- context [Nat.leb ?u ?v] => destruct (Nat.leb_spec u v)
           end; cbn; lia. }
  destruct (countsAsVisible (k, e)) eqn:Hc; [| lia].
  unfold countsAsVisible in Hc. apply andb_true_iff in Hc as [Hk _].
  cbn [fst] in Hk. rewrite includes_isKeypointIndex in Hk.
  apply isKeypointIndex_spec in Hk. cbn [List.length].
  cbn in Hk. destruct Hk as [<- | [<- | [<- | [<- | []]]]]; cbn in *; lia.
Qed.

Lemma visibleFrom_beyond (k : nat) (l : Landmarks) :
  (13 <= k)%nat -> visibleFrom k l = [].
Proof.
  intros Hk. pose proof (visibleFrom_bound k l) as Hb.
  assert (E : filter (Nat.leb k) [7; 8; 11; 12]%nat = []).
  { cbn [filter].
    repeat match goal with
           | |- context [Nat.leb ?u ?v] => destruct (Nat.leb_spec u v)
           end; (reflexivity || lia). }
  rewrite E in Hb. destruct (visibleFrom k l); [reflexivity | cbn in Hb; lia].
Qed.

(** A frame that has the index 12 has at least thirteen entries. *)
Lemma thirteen_entries (landmarks : Landmarks) (l : Landmark) :
  at_index landmarks 12 = Some l ->
  exists e0 e1 e2 e3 e4 e5 e6 e7 e8 e9 e10 e11 rest,
    landmarks = e0 :: e1 :: e2 :: e3 :: e4 :: e5 :: e6 :: e7 :: e8 :: e9
                   :: e10 :: e11 :: Some l :: rest.
Proof.
  unfold at_index. intros H.
  do 12 (destruct landmarks as [| ? landmarks]; [discriminate H |]).
  destruct landmarks as [| e12 rest]; [discriminate H |].
  cbn in H. subst e12. repeat eexists.
Qed.

Lemma visible_counts (l : Landmark) (k : nat) :
  visible (Some l) = true -> isKeypointIndex k = true ->
  countsAsVisible (k, Some l) = true.
Proof.
  intros Hv Hk. unfold countsAsVisible. cbn [fst snd entryVisibility].
  rewrite includes_isKeypointIndex, Hk. cbn [andb].
  unfold visible in Hv. apply Rgtb_true in Hv. apply Rgtb_true. lra.
Qed.

(** X18: the keypoint counter never shows more than 4 of 4, and shows
    "4/4" for every frame that passes the visibility gate of the analysis;
    the frame-rate fields are not touched. *)
Theorem keypoint_counter (landmarks : Landmarks) (st : Stats) :
  let st' := updatePoseStats landmarks st in
  keypointCount st'
  = Z_to_string (Z.of_nat (List.length (visibleLandmarks landmarks))) ++ "/4" /\
  (List.length (visibleLandmarks landmarks) <= 4)%nat /\
  (hasGoodVisibility landmarks = true -> keypointCount st' = "4/4") /\
  frameCount st' = frameCount st /\ lastTime st' = lastTime st /\
  fps st' = fps st /\ fpsCounter st' = fpsCounter st.
Proof.
  cbv zeta. split; [reflexivity |]. split; [| split; [| auto]].
  - rewrite visibleLandmarks_from. apply (visibleFrom_bound 0 landmarks).
  - intros Hg. apply hasGoodVisibility_true in Hg as (H7 & H8 & H11 & H12).
    destruct (visible_present _ H12) as [l12 E12].
    destruct (thirteen_entries landmarks l12 E12)
      as (e0 & e1 & e2 & e3 & e4 & e5 & e6 & e7 & e8 & e9 & e10 & e11 & rest & ->).
    unfold at_index in H7, H8, H11, H12. cbn [nth_error] in H7, H8, H11, H12.
    destruct (visible_present _ H7) as [l7 ->].
    destruct (visible_present _ H8) as [l8 ->].
    destruct (visible_present _ H11) as [l11 ->].
    unfold updatePoseStats. cbn [keypointCount].
    rewrite visibleLandmarks_from.
    do 7 (rewrite visibleFrom_cons;
          replace (countsAsVisible _) with false
            by (unfold countsAsVisible; reflexivity)).
    rewrite visibleFrom_cons, (visible_counts l7 7 H7 eq_refl).
    rewrite visibleFrom_cons, (visible_counts l8 8 H8 eq_refl).
    do 2 (rewrite visibleFrom_cons;
          replace (countsAsVisible _) with false
            by (unfold countsAsVisible; reflexivity)).
    rewrite visibleFrom_cons, (visible_counts l11 11 H11 eq_refl).
    rewrite visibleFrom_cons, (visible_counts l12 12 H12 eq_refl).
    rewrite visibleFrom_beyond by lia.
    reflexivity.
Qed.

Lemma keypoint_counter_witness :
  keypointCount (updatePoseStats unseenEarPose
                   {| keypointCount := ""; frameCount := 0; lastTime := 0;
                      fps := 0; fpsCounter := "" |}) = "4/4".
Proof.
  refine (proj1 (proj2 (proj2 (keypoint_counter unseenEarPose _))) _).
  apply hasGoodVisibility_pose;
    first [ now apply visible_zero
          | apply visible_above with (v := 9 / 10); [reflexivity | lra] ].
Defined.

Lemma circles_app (a b : list CanvasOp) : circles (a ++ b) = (circles a + circles b)%nat.
Proof. unfold circles. now rewrite filter_app, length_app. Qed.

Lemma drawConnections_no_circle (w h : R) (landmarks : Landmarks) :
  circles (drawConnections w h landmarks) = 0%nat.
Proof.
  unfold drawConnections.
  destruct (at_index landmarks 11), (at_index landmarks 12); try reflexivity.
  destruct (_ && _); reflexivity.
Qed.

Lemma drawKeypoints_circles (w h : R) (l : Landmarks) (k : nat)
    (before drawn : list CanvasOp) :
  drawKeypoints w h l k before = returned drawn ->
  circles drawn = (circles before + List.length (visibleFrom k l))%nat.
Proof.
  revert k before. induction l as [| e l IH]; intros k before H.
  - cbn in H. injection H as <-. cbn. lia.
  - cbn [drawKeypoints] in H. rewrite visibleFrom_cons.
    unfold countsAsVisible. cbn [fst snd]. rewrite includes_isKeypointIndex.
    destruct (isKeypointIndex k).
    + destruct e as [l0 |]; [| discriminate H]. cbn [entryVisibility andb].
      apply IH in H. rewrite H.
      destruct (Rgtb (or_default (visibility l0) 1) (5 / 10)).
      * rewrite circles_app. cbn. lia.
      * reflexivity.
    + cbn [andb]. now apply IH in H.
Qed.

Lemma drawKeypoints_outcome (w h : R) (l : Landmarks) (k : nat)
    (before : list CanvasOp) :
  (exists drawn, drawKeypoints w h l k before = threw drawn) <->
  (exists j, isKeypointIndex (k + j) = true /\ nth_error l j = Some None).
Proof.
  revert k before. induction l as [| e l IH]; intros k before.
  - cbn. split; [intros [? H]; discriminate H |].
    intros (j & _ & H). destruct j; discriminate H.
  - cbn [drawKeypoints]. destruct (isKeypointIndex k) eqn:Hk.
    + destruct e as [l0 |].
      * rewrite IH. split.
        -- intros (j & Hj & Hn). exists (S j).
           replace (k + S j)%nat with (S k + j)%nat by lia. auto.
        -- intros ([| j] & Hj & Hn); [discriminate Hn |].
           exists j. replace (S k + j)%nat with (k + S j)%nat by lia. auto.
      * split; [| eauto]. intros _. exists 0%nat.
        rewrite Nat.add_0_r. auto.
    + rewrite IH. split.
      * intros (j & Hj & Hn). exists (S j).
        replace (k + S j)%nat with (S k + j)%nat by lia. auto.
      * intros ([| j] & Hj & Hn).
        -- rewrite Nat.add_0_r in Hj. congruence.
        -- exists j. replace (S k + j)%nat with (k + S j)%nat by lia. auto.
Qed.

Lemma drawPose_returns (w h : R) (landmarks : Landmarks) :
  (forall i, In i [7; 8; 11; 12]%nat -> nth_error landmarks i <> Some None) ->
  exists drawn, drawPose w h landmarks = returned drawn.
Proof.
  intros Hall. unfold drawPose.
  destruct (drawKeypoints w h landmarks 0 (drawConnections w h landmarks))
    as [drawn | drawn] eqn:E; [eauto |].
  exfalso.
  destruct (proj1 (drawKeypoints_outcome w h landmarks 0 _) (ex_intro _ _ E))
    as (j & Hj & Hn).
  cbn in Hj. apply isKeypointIndex_spec in Hj. now apply (Hall j).
Qed.

Lemma gate_entries_present (landmarks : Landmarks) :
  hasGoodVisibility landmarks = true ->
  forall i, In i [7; 8; 11; 12]%nat -> nth_error landmarks i <> Some None.
Proof.
  intros Hg i Hi Hn. apply hasGoodVisibility_true in Hg as (H7 & H8 & H11 & H12).
  assert (Hv : visible (at_index landmarks i) = true)
    by (cbn in Hi; destruct Hi as [<- | [<- | [<- | [<- | []]]]]; assumption).
  unfold at_index in Hv. rewrite Hn in Hv. discriminate Hv.
Qed.

(** X19: when [drawPose] returns, the number of keypoint circles it has
    drawn is the number the keypoint counter shows. *)
Theorem circles_match_counter
    (w h : R) (landmarks : Landmarks) (drawn : list CanvasOp) (st : Stats) :
  drawPose w h landmarks = returned drawn ->
  circles drawn = List.length (visibleLandmarks landmarks) /\
  keypointCount (updatePoseStats landmarks st)
  = Z_to_string (Z.of_nat (circles drawn)) ++ "/4".
Proof.
  intros H. unfold drawPose in H. apply drawKeypoints_circles in H.
  rewrite drawConnections_no_circle in H. cbn in H.
  rewrite visibleLandmarks_from. split; [exact H |].
  unfold updatePoseStats. cbn [keypointCount].
  now rewrite visibleLandmarks_from, H.
Qed.

Lemma circles_match_counter_witness :
  exists drawn,
    drawPose 640 480 uprightPose = returned drawn /\
    circles drawn = List.length (visibleLandmarks uprightPose).
Proof.
  assert (Hg : hasGoodVisibility uprightPose = true).
  { apply hasGoodVisibility_pose;
      apply visible_above with (v := 9 / 10); (reflexivity || lra). }
  destruct (drawPose_returns 640 480 uprightPose (gate_entries_present _ Hg))
    as [drawn Hd].
  exists drawn. split; [exact Hd |].
  exact (proj1 (circles_match_counter 640 480 uprightPose drawn
                  {| keypointCount := ""; frameCount := 0; lastTime := 0;
                     fps := 0; fpsCounter := "" |} Hd)).
Defined.

(** ** Results from the pose model *)

(** X20: when the landmark array holds an empty entry at index 7, 8, 11 or
    12, [onResults] throws while drawing the keypoints: the frame is not
    analysed and not counted, and the engine, the counters and the controls
    keep their values. *)
Theorem missing_entry_throws
    (landmarks : Landmarks) (perfNow : R) (dateNow : Z) (p : Page) (i : nat) :
  In i [7; 8; 11; 12]%nat ->
  nth_error landmarks i = Some None ->
  exists p', onResults (Some landmarks) perfNow dateNow p = threw p' /\
             detector p' = detector p /\ stats p' = stats p /\
             controls p' = controls p.
Proof.
  intros Hi Hn.
  assert (Hthrow : exists drawn,
            drawPose (canvas_width (overlay p)) (canvas_height (overlay p))
              landmarks = threw drawn).
  { unfold drawPose. apply drawKeypoints_outcome. exists i.
    split; [now apply isKeypointIndex_spec | exact Hn]. }
  destruct Hthrow as [drawn Hd].
  unfold onResults. cbv zeta.
  destruct landmarks as [| first others]; [destruct i; discriminate Hn |].
  rewrite Hd. eexists. split; [reflexivity |]. cbn. auto.
Qed.

Lemma missing_entry_throws_witness :
  exists p',
    onResults (Some (None :: earlessPose)) 0 0 (pageWith alertingState [])
    = threw p' /\ detector p' = alertingState.
Proof.
  destruct (missing_entry_throws (None :: earlessPose) 0 0
              (pageWith alertingState []) 7 (or_introl eq_refl) eq_refl)
    as (p' & Hp & Hd & _).
  exists p'. split; [exact Hp | exact Hd].
Defined.

(** A frame that passes the gate is drawn, analysed and counted. *)
Lemma onResults_analysed (landmarks : Landmarks) (perfNow : R) (dateNow : Z) (p : Page) :
  hasGoodVisibility landmarks = true ->
  exists p', onResults (Some landmarks) perfNow dateNow p = returned p' /\
             detector p' = analyzePosePosture landmarks dateNow (detector p).
Proof.
  intros Hg.
  destruct (drawPose_returns (canvas_width (overlay p)) (canvas_height (overlay p))
              landmarks (gate_entries_present landmarks Hg)) as [drawn Hd].
  unfold onResults. cbv zeta.
  destruct landmarks as [| first others]; [discriminate Hg |].
  rewrite Hd. eexists. split; reflexivity.
Qed.

Lemma pageRun_app (events1 events2 : list PageEvent) (p : Page) :
  pageRun (events1 ++ events2) p = pageRun events2 (pageRun events1 p).
Proof. unfold pageRun. apply fold_left_app. Qed.

Lemma noDetection_keeps_detector (events : list PageEvent) (p : Page) :
  Forall noDetection events -> detector (pageRun events p) = detector p.
Proof.
  revert p. induction events as [| e events IH]; intros p Hall; [reflexivity |].
  inversion Hall as [| ? ? He Hrest]; subst.
  change (pageRun (e :: events) p) with (pageRun events (pageStep e p)).
  rewrite IH by exact Hrest.
  destruct e as [[[| first others] |] perfNow dateNow | | |]; try contradiction;
    reflexivity.
Qed.

(** X21: results in which nobody was found leave the engine as it is: they
    do not reset the dwell timer, so the time without detection counts
    towards the next poor frame's duration. *)
Theorem undetected_time_counts
    (p : Page) (t0 : Z) (gap : list PageEvent)
    (landmarks : Landmarks) (perfNow : R) (t : Z) :
  poorPostureStartTime (detector p) = Some t0 ->
  Forall noDetection gap ->
  poorFrame landmarks ->
  detector (pageRun gap p) = detector p /\
  poorPostureDuration
    (detector (pageRun (gap ++ [results (Some landmarks) perfNow t]) p))
  = (t - t0)%Z.
Proof.
  intros Hst Hgap (a & Ha & Hlt).
  pose proof (noDetection_keeps_detector gap p Hgap) as Hkeep.
  split; [exact Hkeep |].
  rewrite pageRun_app.
  change (pageRun [results (Some landmarks) perfNow t] (pageRun gap p))
    with (outcome_state (onResults (Some landmarks) perfNow t (pageRun gap p))).
  assert (Hg : hasGoodVisibility landmarks = true).
  { destruct (hasGoodVisibility landmarks) eqn:E; [reflexivity |].
    apply frameAngle_None in E. congruence. }
  destruct (onResults_analysed landmarks perfNow t (pageRun gap p) Hg)
    as (p' & Hp & Hd).
  rewrite Hp. cbn [outcome_state]. rewrite Hd, Hkeep.
  destruct (step_poor landmarks t (detector p) a Ha Hlt) as (_ & _ & _ & _ & Hdur & _).
  now rewrite Hdur, Hst.
Qed.

Lemma undetected_time_counts_witness :
  poorPostureDuration
    (detector (pageRun ([results None 16 4000; results (Some []) 33 8000]
                        ++ [results (Some slumpedPose) 50 12000])
                 (pageWith alertingState [])))
  = (12000 - 0)%Z.
Proof.
  refine (proj2 (undetected_time_counts (pageWith alertingState []) 0
                   [results None 16 4000; results (Some []) 33 8000]
                   slumpedPose 50 12000 alertingState_start _ poorFrame_slumped)).
  repeat constructor.
Defined.

(** ** The camera buttons *)

Lemma pageStep_inv (e : PageEvent) (p : Page) :
  alertInv (detector p) -> alertInv (detector (pageStep e p)).
Proof.
  intros Hinv. destruct e as [poseLandmarks perfNow dateNow | id | |].
  - cbn [pageStep]. unfold onResults. cbv zeta.
    destruct poseLandmarks as [[| first others] |]; try exact Hinv.
    destruct (drawPose _ _ _); cbn; [| exact Hinv].
    now apply analyzePosePosture_inv.
  - cbn. now apply (step_inv (timeout id)).
  - cbn. now apply resetPoorPostureTimer_inv.
  - cbn [pageStep]. unfold switchCamera.
    destruct (List.length (cameras (controls p)) <=? 1)%nat; [exact Hinv |].
    cbn. now apply resetPoorPostureTimer_inv.
Qed.

Lemma pageRun_inv (events : list PageEvent) (p : Page) :
  alertInv (detector p) -> alertInv (detector (pageRun events p)).
Proof.
  revert p. induction events as [| e events IH]; intros p Hinv; [exact Hinv |].
  change (pageRun (e :: events) p) with (pageRun events (pageStep e p)).
  apply IH. now apply pageStep_inv.
Qed.

(** X22: whatever happened on the page before, [stopCamera] leaves the
    engine reset and quiet: no start time, duration 0, timer and alert
    hidden, no auto-hide timeout outstanding; the stream is released, the
    panels are hidden and only the start button is enabled. *)
Theorem stopCamera_resets
    (events : list PageEvent) (o : Overlay) (perfNow : R) (c : Controls) :
  let p := stopCamera (pageRun events (new_Page o perfNow c)) in
  poorPostureStartTime (detector p) = None /\
  poorPostureDuration (detector p) = 0%Z /\
  postureTimer (dom (detector p)) = display_none /\
  alertShown (detector p) = false /\
  postureAlert (dom (detector p)) <> display_block /\
  timeouts (host (detector p)) = [] /\
  stream (controls p) = None /\
  startBtn_disabled (controls p) = Some false /\
  stopBtn_disabled (controls p) = Some true /\
  switchBtn_disabled (controls p) = Some true /\
  postureDisplay_style (controls p) = display_none /\
  poseInfo (controls p) = display_none.
Proof.
  cbv zeta. set (before := pageRun events (new_Page o perfNow c)).
  assert (Hinv : alertInv (detector before))
    by (apply pageRun_inv; exact alertInv_new).
  destruct (resetPoorPostureTimer_spec (detector before))
    as (_ & Hst & Hd & Hal & Htm & _).
  destruct (resetPoorPostureTimer_inv (detector before) Hinv)
    as (_ & Hnil & Hblock).
  cbn. split_all; auto.
Qed.

Lemma switchCamera_controls (p : Page) :
  (1 < List.length (cameras (controls p)))%nat ->
  cameras (controls (switchCamera p)) = cameras (controls p) /\
  currentCamera (controls (switchCamera p))
  = ((currentCamera (controls p) + 1) mod List.length (cameras (controls p)))%nat /\
  startCameraScheduled (controls (switchCamera p))
  = S (startCameraScheduled (controls p)) /\
  stream (controls (switchCamera p)) = None.
Proof.
  intros Hn. unfold switchCamera.
  destruct (Nat.leb_spec (List.length (cameras (controls p))) 1); [lia |].
  cbn. auto.
Qed.

Lemma switchCamera_iter (k : nat) (p : Page) :
  (1 < List.length (cameras (controls p)))%nat ->
  let n := List.length (cameras (controls p)) in
  let p' := Nat.iter k switchCamera p in
  cameras (controls p') = cameras (controls p) /\
  (currentCamera (controls p') mod n
   = (currentCamera (controls p) + k) mod n)%nat /\
  ((0 < k)%nat -> (currentCamera (controls p') < n)%nat).
Proof.
  intros Hn. cbv zeta. induction k as [| k IH].
  - cbn. rewrite Nat.add_0_r. split_all; auto. lia.
  - change (Nat.iter (S k) switchCamera p)
      with (switchCamera (Nat.iter k switchCamera p)).
    destruct IH as (Hc & Hm & _).
    destruct (switchCamera_controls (Nat.iter k switchCamera p))
      as (E1 & E2 & _); [rewrite Hc; exact Hn |].
    rewrite Hc in *. split; [exact E1 |].
    assert (Hlt : (currentCamera (controls (switchCamera (Nat.iter k switchCamera p)))
                   < List.length (cameras (controls p)))%nat)
      by (rewrite E2; apply Nat.mod_upper_bound; lia).
    split; [| intros _; exact Hlt].
    rewrite E2, Nat.Div0.mod_mod.
    rewrite <- Nat.Div0.add_mod_idemp_l, Hm, Nat.Div0.add_mod_idemp_l.
    f_equal. lia.
Qed.

(** X23: with at most one camera [switchCamera] does nothing.  With more,
    it moves to the next camera, wrapping round, keeps the index inside the
    list, releases the stream and schedules one [startCamera]; switching as
    many times as there are cameras comes back to the camera it began
    with. *)
Theorem switchCamera_cycles (p : Page) :
  ((List.length (cameras (controls p)) <= 1)%nat -> switchCamera p = p) /\
  ((1 < List.length (cameras (controls p)))%nat ->
   let n := List.length (cameras (controls p)) in
   currentCamera (controls (switchCamera p))
   = ((currentCamera (controls p) + 1) mod n)%nat /\
   (currentCamera (controls (switchCamera p)) < n)%nat /\
   startCameraScheduled (controls (switchCamera p))
   = S (startCameraScheduled (controls p)) /\
   stream (controls (switchCamera p)) = None /\
   ((currentCamera (controls p) < n)%nat ->
    currentCamera (controls (Nat.iter n switchCamera p))
    = currentCamera (controls p))).
Proof.
  split.
  - intros Hn. unfold switchCamera.
    destruct (Nat.leb_spec (List.length (cameras (controls p))) 1);
      [reflexivity | lia].
  - intros Hn. cbv zeta.
    destruct (switchCamera_controls p Hn) as (_ & Hc & Hs & Hst).
    split; [exact Hc |]. split; [| split; [exact Hs | split; [exact Hst |]]].
    + rewrite Hc. apply Nat.mod_upper_bound. lia.
    + intros Hlt.
      destruct (switchCamera_iter (List.length (cameras (controls p))) p Hn)
        as (_ & E & Hin).
      rewrite Nat.mod_small in E by (apply Hin; lia).
      rewrite E.
      replace (currentCamera (controls p) + List.length (cameras (controls p)))%nat
        with (currentCamera (controls p)
              + 1 * List.length (cameras (controls p)))%nat by lia.
      rewrite Nat.Div0.mod_add. now apply Nat.mod_small.
Qed.

Lemma switchCamera_cycles_witness :
  switchCamera (pageWith new_PoseDetector ["front"]) = pageWith new_PoseDetector ["front"] /\
  currentCamera (controls (switchCamera (pageWith new_PoseDetector ["front"; "back"; "usb"])))
  = 1%nat /\
  currentCamera
    (controls (Nat.iter 3 switchCamera (pageWith new_PoseDetector ["front"; "back"; "usb"])))
  = 0%nat.
Proof.
  split; [| split].
  - apply (proj1 (switchCamera_cycles (pageWith new_PoseDetector ["front"]))).
    cbn. lia.
  - refine (proj1 (proj2 (switchCamera_cycles
                            (pageWith new_PoseDetector ["front"; "back"; "usb"])) _)).
    cbn. lia.
  - refine (proj2 (proj2 (proj2 (proj2 (proj2 (switchCamera_cycles
              (pageWith new_PoseDetector ["front"; "back"; "usb"])) _)))) _);
      cbn; lia.
Defined.

(** ** The counter against the gate, the canvas against the panel *)

Lemma four_counted (landmarks : Landmarks) :
  (forall j, In j [7; 8; 11; 12]%nat ->
     countsAsVisible (j, at_index landmarks j) = true /\
     at_index landmarks j <> None) ->
  List.length (visibleLandmarks landmarks) = 4%nat.
Proof.
  intros Hall.
  destruct (Hall 7%nat) as [C7 P7]; [cbn; auto |].
  destruct (Hall 8%nat) as [C8 P8]; [cbn; auto |].
  destruct (Hall 11%nat) as [C11 P11]; [cbn; auto |].
  destruct (Hall 12%nat) as [C12 P12]; [cbn; auto |].
  destruct (at_index landmarks 12) as [l12 |] eqn:E12; [| contradiction].
  destruct (thirteen_entries landmarks l12 E12)
    as (e0 & e1 & e2 & e3 & e4 & e5 & e6 & e7 & e8 & e9 & e10 & e11 & rest & ->).
  unfold at_index in C7, C8, C11. cbn [nth_error] in C7, C8, C11.
  rewrite visibleLandmarks_from.
  do 7 (rewrite visibleFrom_cons;
        replace (countsAsVisible _) with false
          by (unfold countsAsVisible; reflexivity)).
  rewrite visibleFrom_cons, C7, visibleFrom_cons, C8.
  do 2 (rewrite visibleFrom_cons;
        replace (countsAsVisible _) with false
          by (unfold countsAsVisible; reflexivity)).
  rewrite visibleFrom_cons, C11, visibleFrom_cons, C12.
  rewrite visibleFrom_beyond by lia.
  reflexivity.
Qed.

(** X24: the counter and the drawing accept a keypoint from visibility 0.5
    on, the analysis only above 0.6: when all four required keypoints are
    reported with a visibility above 0.5 and one of them is at most 0.6, the
    counter shows "4/4" while the posture is published as "unknown" with the
    title "Keypoints not visible". *)
Theorem counted_but_not_analysed
    (landmarks : Landmarks) (now : Z) (this : PoseDetector) (st : Stats)
    (i : nat) (dim : Landmark) (v : R) :
  (forall j, In j [7; 8; 11; 12]%nat ->
     exists l u, at_index landmarks j = Some l /\ visibility l = Some u /\
                 (5 / 10 < u)%R) ->
  In i [7; 8; 11; 12]%nat ->
  at_index landmarks i = Some dim -> visibility dim = Some v -> (v <= 6 / 10)%R ->
  keypointCount (updatePoseStats landmarks st) = "4/4" /\
  postureDisplay (dom (analyzePosePosture landmarks now this)) = className "unknown" /\
  statusTitle (dom (analyzePosePosture landmarks now this)) = "Keypoints not visible".
Proof.
  intros Hall Hi Hdim Hv Hle.
  assert (Hfour : List.length (visibleLandmarks landmarks) = 4%nat).
  { apply four_counted. intros j Hj.
    destruct (Hall j Hj) as (l & u & -> & Hu & Hlt).
    split; [| discriminate].
    unfold countsAsVisible. cbn [fst snd entryVisibility].
    rewrite includes_isKeypointIndex, (proj2 (isKeypointIndex_spec j) Hj).
    cbn [andb]. rewrite Hu. unfold or_default.
    destruct (Req_dec_T u 0); apply Rgtb_true; lra. }
  assert (Hnz : v <> 0%R).
  { destruct (Hall i Hi) as (l & u & Hl & Hu & Hlt).
    rewrite Hdim in Hl. injection Hl as <-. rewrite Hv in Hu.
    injection Hu as <-. lra. }
  assert (Hg : frameAngle landmarks = None).
  { apply frameAngle_None. apply gate_fails with (i := i); [exact Hi |].
    right. exists dim, v. auto. }
  destruct (step_unknown landmarks now this Hg) as (Hq & Ht & _).
  split; [| auto].
  unfold updatePoseStats. cbn [keypointCount]. now rewrite Hfour.
Qed.

Lemma counted_but_not_analysed_witness :
  keypointCount (updatePoseStats dimEarPose (stats (pageWith new_PoseDetector [])))
  = "4/4" /\
  postureDisplay (dom (analyzePosePosture dimEarPose 0 new_PoseDetector))
  = className "unknown".
Proof.
  assert (Hall : forall j, In j [7; 8; 11; 12]%nat ->
            exists l u, at_index dimEarPose j = Some l /\ visibility l = Some u /\
                        (5 / 10 < u)%R).
  { intros j Hj. cbn in Hj.
    destruct Hj as [<- | [<- | [<- | [<- | []]]]];
      do 2 eexists; (split; [reflexivity |]); (split; [reflexivity | lra]). }
  assert (Hle : (55 / 100 <= 6 / 10)%R) by lra.
  destruct (counted_but_not_analysed dimEarPose 0 new_PoseDetector
              (stats (pageWith new_PoseDetector [])) 7
              (point (5 / 10) (3 / 10) (Some (55 / 100))) (55 / 100)
              Hall (or_introl eq_refl) eq_refl eq_refl Hle) as (H1 & H2 & _).
  split; [exact H1 | exact H2].
Defined.

(** X25: for every frame that passes the gate, the angle text written on
    the canvas is the angle text published in the status panel. *)
Theorem canvas_angle_matches_panel
    (w h : R) (landmarks : Landmarks) (now : Z) (before : PoseDetector) (a : R) :
  frameAngle landmarks = Some a ->
  let this := analyzePosePosture landmarks now before in
  neckAngle (dom this) = Z_to_string (Math.round a) ++ "Â°" /\
  exists tx ty,
    In (strokeText (neckAngle (dom this)) tx ty)
       (analyzePosePosture_drawing w h landmarks this) /\
    In (fillText (neckAngle (dom this)) tx ty)
       (analyzePosePosture_drawing w h landmarks this).
Proof.
  intros Ha. cbv zeta.
  pose proof (analyzePosePosture_angle landmarks now before a Ha) as Hc.
  assert (Hn : neckAngle (dom (analyzePosePosture landmarks now before))
               = Z_to_string (Math.round a) ++ "Â°").
  { destruct (Rlt_dec a 160) as [Hlt | Hge].
    - now destruct (step_poor landmarks now before a Ha Hlt)
        as (_ & _ & _ & _ & _ & _ & _ & _ & Hn).
    - assert (Hge' : (160 <= a)%R) by lra.
      now destruct (step_not_poor landmarks now before a Ha Hge')
        as (_ & _ & _ & _ & _ & _ & _ & _ & Hn). }
  split; [exact Hn |].
  unfold analyzePosePosture_drawing. revert Ha. unfold frameAngle.
  destruct (hasGoodVisibility landmarks); [| discriminate].
  destruct (at_index landmarks 7), (at_index landmarks 8),
    (at_index landmarks 11), (at_index landmarks 12); try discriminate.
  intros _. unfold drawPostureAnalysis, drawAngleVisualization. cbv zeta.
  rewrite Hn, Hc. do 2 eexists.
  split; apply in_or_app; right; cbn; auto 20.
Qed.

Lemma canvas_angle_matches_panel_witness :
  neckAngle (dom (analyzePosePosture uprightPose 0 new_PoseDetector))
  = Z_to_string (Math.round 180) ++ "Â°".
Proof.
  exact (proj1 (canvas_angle_matches_panel 640 480 uprightPose 0
                  new_PoseDetector 180 frameAngle_upright)).
Defined.
